(** * Download-session orchestrator: pacing, retry bookkeeping and resumption

    A shallow embedding of the two paced channel downloaders of the
    repository,

      - [src/yt_stealth_downloader.py]  (class [StealthChannelDownloader]),
      - [src/yt_channel_advanced.py]    (class [AdvancedChannelDownloader]),

    and of the cookie rotation both use ([src/cookie_manager.py], class
    [CookieManager]), together with the properties of the orchestrator that the specification
    states about them.

    Conventions of the embedding.

      - Python [int]s are [Z]; Python [float]s are exact rationals [Q].  All
        results below depend only on comparisons, on [max] and on which
        branch is taken, never on the rounding of a float product.
      - A [dict] keyed by strings is a [gmap string _]; a [list] is a [list].
      - [str] values are ASCII strings.
      - Everything the program obtains from outside (the outcome of a
        download, the clock, the [.stop] file, a Ctrl-C, the draws of the
        [random] module) is read from an explicit environment value, so each
        method is a total function of the object state and that environment.
      - A method that mutates [self] returns the new object state.  Time
        stamps written into the progress file ([downloaded_at], [started],
        [date], ...) and console output are left out: no decision of the
        program reads them back. *)

From stdpp Require Import gmap strings list fin_maps.
From Stdlib Require Import Ascii QArith Qround Lqa.

Local Open Scope Z_scope.

(** ** Python helpers *)

Module Py.

(** [needle in hay] on strings. *)
Fixpoint contains (needle hay : string) : bool :=
  if String.prefix needle hay then true
  else match hay with
       | EmptyString => false
       | String _ rest => contains needle rest
       end.

(** [str.lower()] on ASCII text. *)
Definition lower_ascii (c : ascii) : ascii :=
  let n := nat_of_ascii c in
  if (Nat.leb 65 n && Nat.leb n 90)%bool then ascii_of_nat (n + 32)%nat else c.

Fixpoint lower (s : string) : string :=
  match s with
  | EmptyString => EmptyString
  | String c rest => String (lower_ascii c) (lower rest)
  end.

(** [s.replace(a, b)] for single characters, and [s.replace(a, '')]. *)
Fixpoint replace_char (a b : ascii) (s : string) : string :=
  match s with
  | EmptyString => EmptyString
  | String c rest =>
      String (if Ascii.eqb c a then b else c) (replace_char a b rest)
  end.

Fixpoint remove_char (a : ascii) (s : string) : string :=
  match s with
  | EmptyString => EmptyString
  | String c rest =>
      if Ascii.eqb c a then remove_char a rest
      else String c (remove_char a rest)
  end.

(** [s.startswith(p)]. *)
Definition startswith (p s : string) : bool := String.prefix p s.

(** [l[:n]]: a negative bound counts from the end of the list. *)
Definition slice_to {A} (n : Z) (l : list A) : list A :=
  if 0 <=? n then take (Z.to_nat n) l
  else take (length l - Z.to_nat (- n))%nat l.

(** [x < y] on numbers, as a boolean. *)
Definition Qltb (x y : Q) : bool := negb (Qle_bool y x).

(** [max(a, b)]: the first argument unless the second is strictly larger. *)
Definition max (a b : Q) : Q := if Qltb a b then b else a.

(** [round(x)] of a float to an integer: to the nearest integer, a tie
    going to the even neighbour. *)
Definition round (x : Q) : Z :=
  let f := Qfloor x in
  let frac := (x - inject_Z f)%Q in
  if Qltb frac (1 # 2) then f
  else if Qltb (1 # 2) frac then f + 1
  else if Z.even f then f else f + 1.

(** [random.uniform(a, b)] is [a + (b - a) * random()], where [r] is the
    value [random()] returned. *)
Definition uniform (a b r : Q) : Q := (a + (b - a) * r)%Q.

(** [list(dict.fromkeys(l))]: duplicates removed, first occurrences kept
    in order. *)
Fixpoint dedupe_from (seen l : list string) : list string :=
  match l with
  | [] => []
  | x :: rest =>
      if bool_decide (x ∈ seen) then dedupe_from seen rest
      else x :: dedupe_from (x :: seen) rest
  end.

Definition dedupe (l : list string) : list string := dedupe_from [] l.

(** [x[i], x[j] = x[j], x[i]] for indices inside the list. *)
Definition swap {A} (i j : nat) (l : list A) : list A :=
  match l !! i, l !! j with
  | Some a, Some b => <[i := b]> (<[j := a]> l)
  | _, _ => l
  end.

(** [random.shuffle(x)]: for [i] from [len(x) - 1] down to [1], exchange
    [x[i]] with [x[j]], [j] drawn from [0..i].  [draws] supplies the raw
    draws, the next one first; each is reduced into the range as
    [_randbelow(i + 1)] is. *)
Fixpoint shuffle_from {A} (i : nat) (draws : list nat) (l : list A) : list A :=
  match i with
  | O => l
  | S i' =>
      let j := (hd O draws mod (i + 1))%nat in
      shuffle_from i' (tl draws) (swap i j l)
  end.

Definition shuffle {A} (draws : list nat) (l : list A) : list A :=
  shuffle_from (length l - 1) draws l.

(** [s.rstrip(c)] for a single character [c]. *)
Fixpoint rstrip_char (c : ascii) (s : string) : string :=
  match s with
  | EmptyString => EmptyString
  | String a rest =>
      match rstrip_char c rest with
      | EmptyString => if Ascii.eqb a c then EmptyString else String a EmptyString
      | stripped => String a stripped
      end
  end.

(** [sorted(l, key=key)]: the sort is stable, elements with equal keys keep
    their order. *)
Fixpoint insert_by {A} (key : A -> Q) (x : A) (l : list A) : list A :=
  match l with
  | [] => [x]
  | y :: rest =>
      if Qltb (key y) (key x) then y :: insert_by key x rest
      else x :: y :: rest
  end.

Fixpoint sorted_by {A} (key : A -> Q) (l : list A) : list A :=
  match l with
  | [] => []
  | x :: rest => insert_by key x (sorted_by key rest)
  end.

End Py.

(** ** Data shared by both downloaders *)

(** What [ydl.download([video['url']])] does when it is called: it returns,
    it raises a [yt_dlp.utils.DownloadError] or another [Exception] whose
    [str] is [msg], or the operator's Ctrl-C arrives during it
    ([KeyboardInterrupt] is not an [Exception]). *)
Inductive fetch_result :=
  | Fetched
  | DownloadError (msg : string)
  | OtherException (msg : string)
  | Interrupted.

(** How a method call ends. *)
Inductive completion :=
  | Returns (value : bool)
  | KeyboardInterrupt.

(** A value of [progress_data['channels']]; its other keys (time stamps,
    the number of videos) are written and never read. *)
Record channel_entry := { c_url : string; c_session : string }.

(** * The stealth downloader ([src/yt_stealth_downloader.py]) *)

Module Stealth.

(** One entry of the list [_get_video_list] returns; [url], [duration]
    and [upload_date] are carried along but never read afterwards. *)
Record video := { id : string; title : string }.

(** A value of [progress_data['downloaded_videos']]. *)
Record downloaded_entry := { d_title : string; d_session : string }.

(** A value of [progress_data['sessions']]. *)
Record session_entry :=
  { s_id : string; s_downloaded : Z; s_failed : Z; s_channel : string }.

(** A value of [progress_data['failed_videos']]. *)
Record failed_entry :=
  { f_title : string; attempts : Z; permanent_failure : bool }.

(** [progress_data], with the five keys [_load_progress] creates. *)
Record progress := {
  downloaded_videos : gmap string downloaded_entry;
  failed_videos : gmap string failed_entry;
  channels : gmap string channel_entry;
  daily_downloads : gmap string Z;
  sessions : list session_entry
}.

(** [_load_progress] when no progress file exists. *)
Definition empty_progress : progress :=
  {| downloaded_videos := ∅; failed_videos := ∅; channels := ∅;
     daily_downloads := ∅; sessions := [] |}.

(** The dictionary [_get_stealth_params] returns. *)
Record params := {
  p_min_wait : Z;
  p_max_wait : Z;
  daily_limit : Z;
  night_hours : option (Z * Z);
  work_hours : option (Z * Z);
  variance : Q
}.

(** The attributes of a [StealthChannelDownloader] the orchestrator
    reads or writes. *)
Record downloader := {
  min_wait : Z;
  max_wait : Z;
  stealth_mode : string;
  progress_data : progress;
  session_id : string;
  downloads_today : Z;
  stealth_params : params
}.

Definition set_progress (self : downloader) (pd : progress) : downloader :=
  {| min_wait := min_wait self; max_wait := max_wait self;
     stealth_mode := stealth_mode self; progress_data := pd;
     session_id := session_id self; downloads_today := downloads_today self;
     stealth_params := stealth_params self |}.

(** The [modes] table of [_get_stealth_params]. *)
Definition modes (mode : string) : option params :=
  if String.eqb mode "low" then
    Some {| p_min_wait := 120; p_max_wait := 600; daily_limit := 50;
            night_hours := None; work_hours := None; variance := 0.2 |}
  else if String.eqb mode "medium" then
    Some {| p_min_wait := 300; p_max_wait := 1200; daily_limit := 20;
            night_hours := Some (23, 7); work_hours := None; variance := 0.3 |}
  else if String.eqb mode "high" then
    Some {| p_min_wait := 600; p_max_wait := 2400; daily_limit := 10;
            night_hours := Some (22, 8); work_hours := Some (9, 17);
            variance := 0.5 |}
  else if String.eqb mode "paranoid" then
    Some {| p_min_wait := 1800; p_max_wait := 7200; daily_limit := 5;
            night_hours := Some (21, 9); work_hours := Some (10, 16);
            variance := 0.7 |}
  else None.

Definition mode_high : params :=
  {| p_min_wait := 600; p_max_wait := 2400; daily_limit := 10;
     night_hours := Some (22, 8); work_hours := Some (9, 17);
     variance := 0.5 |}.

(** [_get_stealth_params]: the mode's row ([high] for an unknown mode),
    with [min_wait] and [max_wait] overridden when they are non-zero. *)
Definition _get_stealth_params (mode : string) (min_wait max_wait : Z) : params :=
  let params := default mode_high (modes mode) in
  let params :=
    if negb (min_wait =? 0) then
      {| p_min_wait := min_wait; p_max_wait := p_max_wait params;
         daily_limit := daily_limit params; night_hours := night_hours params;
         work_hours := work_hours params; variance := variance params |}
    else params in
  if negb (max_wait =? 0) then
    {| p_min_wait := p_min_wait params; p_max_wait := max_wait;
       daily_limit := daily_limit params; night_hours := night_hours params;
       work_hours := work_hours params; variance := variance params |}
  else params.

(** [_get_downloads_today]: [daily_downloads.get(today, 0)]. *)
Definition _get_downloads_today (pd : progress) (today : string) : Z :=
  default 0 (daily_downloads pd !! today).

(** [__init__]: [pd] is what [_load_progress] read, [today] the date and
    [sid] the session id derived from the clock at construction. *)
Definition __init__ (min_wait max_wait : Z) (stealth_mode : string)
    (pd : progress) (today sid : string) : downloader :=
  {| min_wait := min_wait; max_wait := max_wait;
     stealth_mode := stealth_mode; progress_data := pd;
     session_id := sid; downloads_today := _get_downloads_today pd today;
     stealth_params := _get_stealth_params stealth_mode min_wait max_wait |}.

(** [_update_daily_downloads]; [today] is the date when it runs. *)
Definition _update_daily_downloads (self : downloader) (today : string) : downloader :=
  let pd := progress_data self in
  {| min_wait := min_wait self; max_wait := max_wait self;
     stealth_mode := stealth_mode self;
     progress_data :=
       {| downloaded_videos := downloaded_videos pd;
          failed_videos := failed_videos pd;
          channels := channels pd;
          daily_downloads :=
            <[today := downloads_today self + 1]> (daily_downloads pd);
          sessions := sessions pd |};
     session_id := session_id self;
     downloads_today := downloads_today self + 1;
     stealth_params := stealth_params self |}.

(** [_check_time_restrictions], first component; [current_hour] is
    [datetime.now().hour]. *)
Definition _check_time_restrictions (self : downloader) (current_hour : Z) : bool :=
  let night_ok :=
    match night_hours (stealth_params self) with
    | Some (start, end_) =>
        if end_ <? start then
          negb ((start <=? current_hour) || (current_hour <? end_))
        else
          negb ((start <=? current_hour) && (current_hour <? end_))
    | None => true
    end in
  if negb night_ok then false
  else
    match work_hours (stealth_params self) with
    | Some (start, end_) =>
        if negb ((start <=? current_hour) && (current_hour <? end_))
        then false else true
    | None => true
    end.

(** [_check_daily_limit], first component. *)
Definition _check_daily_limit (self : downloader) : bool :=
  if daily_limit (stealth_params self) <=? downloads_today self then false
  else true.

(** The draws [_human_like_delay] takes from [random], as values of
    [random.random()]: for the base delay, for the variance factor, for
    the decision to take a break and for the length of the break. *)
Record delay_draws := { r_base : Q; r_variance : Q; r_break : Q; r_break_length : Q }.

(** [_human_like_delay] up to the rounding step (lines 189-209). *)
Definition raw_delay (self : downloader) (r : delay_draws) : Q :=
  let base_min := inject_Z (p_min_wait (stealth_params self)) in
  let base_max := inject_Z (p_max_wait (stealth_params self)) in
  let variance := variance (stealth_params self) in
  let delay := Py.uniform base_min base_max (r_base r) in
  let variance_factor := Py.uniform (1 - variance) (1 + variance) (r_variance r) in
  let delay := (delay * variance_factor)%Q in
  let delay :=
    if 5 <? downloads_today self then (delay * 1.5)%Q
    else if 10 <? downloads_today self then (delay * 2.0)%Q
    else delay in
  if Py.Qltb (r_break r) 0.1 then (delay + Py.uniform 900 1800 (r_break_length r))%Q
  else delay.

(** The rounding step (lines 212-215). *)
Definition round_delay (delay : Q) : Q :=
  if Py.Qltb delay 300 then inject_Z (Py.round (delay / 10) * 10)
  else inject_Z (Py.round (delay / 60) * 60).

(** [_human_like_delay]. *)
Definition _human_like_delay (self : downloader) (r : delay_draws) : Q :=
  let base_min := inject_Z (p_min_wait (stealth_params self)) in
  Py.max base_min (round_delay (raw_delay self r)).

(** The classification of a failure in [_download_single_video]
    (lines 396-400); [e] is [str(e)]. *)
Definition is_permanent (e : string) : bool :=
  let error_msg := Py.lower e in
  Py.contains "unavailable" error_msg
  || Py.contains "private" error_msg
  || Py.contains "deleted" error_msg
  || Py.contains "removed" error_msg.

(** A call of [ydl.download] the orchestrator made: the video it was made
    for and, as a ghost value, [downloads_today] at the time of the call. *)
Record fetch_call := { fc_id : string; fc_downloads_today : Z }.

(** What [_download_single_video] reads from outside. *)
Record video_env := {
  ve_fetch : fetch_result;   (* what [ydl.download] does, if it is called *)
  ve_today : string          (* the date when the download has finished *)
}.

Definition with_downloaded (pd : progress) (m : gmap string downloaded_entry) : progress :=
  {| downloaded_videos := m; failed_videos := failed_videos pd;
     channels := channels pd; daily_downloads := daily_downloads pd;
     sessions := sessions pd |}.

Definition with_failed (pd : progress) (m : gmap string failed_entry) : progress :=
  {| downloaded_videos := downloaded_videos pd; failed_videos := m;
     channels := channels pd; daily_downloads := daily_downloads pd;
     sessions := sessions pd |}.

(** The [except Exception] handler of [_download_single_video]
    (lines 395-413). *)
Definition record_failure (self : downloader) (video : video) (e : string) : downloader :=
  let video_id := id video in
  let pd := progress_data self in
  let is_permanent := is_permanent e in
  let failed :=
    match failed_videos pd !! video_id with
    | None =>
        <[video_id := {| f_title := title video; attempts := 0;
                         permanent_failure := is_permanent |}]> (failed_videos pd)
    | Some f =>
        <[video_id := {| f_title := f_title f; attempts := attempts f;
                         permanent_failure := is_permanent |}]> (failed_videos pd)
    end in
  let failed :=
    alter (fun f => {| f_title := f_title f; attempts := attempts f + 1;
                       permanent_failure := permanent_failure f |})
          video_id failed in
  set_progress self (with_failed pd failed).

(** [_download_single_video]: the new object state, the calls of
    [ydl.download] made (none or one) and how the method ends. *)
Definition _download_single_video (self : downloader) (video : video)
    (env : video_env) : downloader * list fetch_call * completion :=
  let video_id := id video in
  let pd := progress_data self in
  (* Check if already downloaded *)
  if bool_decide (is_Some (downloaded_videos pd !! video_id)) then
    (self, [], Returns true)
  else
    (* Check failed attempts *)
    let failed_attempts :=
      match failed_videos pd !! video_id with
      | Some failed_info => attempts failed_info
      | None => 0
      end in
    if 3 <=? failed_attempts then (self, [], Returns false)
    else
      let call := {| fc_id := video_id; fc_downloads_today := downloads_today self |} in
      match ve_fetch env with
      | Fetched =>
          (* Mark as downloaded *)
          let entry := {| d_title := title video; d_session := session_id self |} in
          let self := set_progress self
                        (with_downloaded pd (<[video_id := entry]> (downloaded_videos pd))) in
          let self := _update_daily_downloads self (ve_today env) in
          (self, [call], Returns true)
      | DownloadError e | OtherException e =>
          (record_failure self video e, [call], Returns false)
      | Interrupted => (self, [call], KeyboardInterrupt)
      end.

(** One element of [info['entries']]: [None] for a null or empty entry;
    [en_id] is [None] when the key is absent or its value is empty. *)
Record entry := { en_id : option string; en_title : string; en_timestamp : option Z }.

(** What [ydl.extract_info] does in [_get_video_list]: it raises (as does
    a reply whose processing raises: the method then returns the empty list
    from its handler), or it returns [info], whose ['entries'] key may be
    absent. *)
Inductive catalog_reply :=
  | CatalogRaises
  | CatalogInfo (entries : option (list (option entry))).

(** The body of the loop over [info['entries']] (lines 275-307): the
    video appended for an entry, if any.  [cutoff] is the cutoff time in
    seconds since the epoch, when a [days_filter] is set. *)
Definition video_of_entry (cutoff : option Z) (e : option entry) : option video :=
  match e with
  | None => None
  | Some e =>
      match en_id e with
      | None => None
      | Some video_id =>
          if Py.startswith "UC" video_id || negb (String.length video_id =? 11)%nat
          then None
          else
            match cutoff, en_timestamp e with
            | Some c, Some upload =>
                if upload <? c then None
                else Some {| id := video_id; title := en_title e |}
            | _, _ => Some {| id := video_id; title := en_title e |}
            end
      end
  end.

(** [_get_video_list] up to the shuffle (lines 258-313): the videos of
    the channel in the order of the catalog; [now] is the clock in
    seconds. *)
Definition listed_videos (reply : catalog_reply) (days_filter : option Z)
    (now : Z) : list video :=
  let cutoff_date :=
    match days_filter with
    | Some days => if days =? 0 then None else Some (now - days * 86400)
    | None => None
    end in
  match reply with
  | CatalogRaises => []
  | CatalogInfo None => []
  | CatalogInfo (Some entries) => omap (video_of_entry cutoff_date) entries
  end.

(** [_get_video_list]; [draws] are the draws [random.shuffle] takes. *)
Definition _get_video_list (self : downloader) (reply : catalog_reply)
    (days_filter : option Z) (now : Z) (draws : list nat) : list video :=
  let videos := listed_videos reply days_filter now in
  (* Shuffle for more random appearance *)
  if bool_decide (stealth_mode self ∈ ["high"; "paranoid"])
  then Py.shuffle draws videos
  else videos.

(** What a run of [download_channel] reads from outside.  The functions
    are indexed by the position [i] of the video in the loop. *)
Record world := {
  w_hour : Z;                        (* [datetime.now().hour] at the start *)
  w_reply : catalog_reply;           (* what [ydl.extract_info] does *)
  w_now : Z;                         (* the clock, in seconds *)
  w_shuffle : list nat;              (* the draws of [random.shuffle] *)
  w_md5 : string -> string;          (* [hashlib.md5(s).hexdigest()[:8]] *)
  w_video : nat -> video_env;        (* the download of video [i] *)
  w_stop : nat -> bool;              (* the [.stop] file exists at [i] *)
  w_interrupt_extra : nat -> bool;   (* Ctrl-C in the extra delay after [i] *)
  w_interrupt_wait : nat -> bool     (* Ctrl-C in the countdown after [i] *)
}.

(** The local variables of the loop of [download_channel], with the calls
    of [ydl.download] made so far. *)
Record loop_state := {
  ls_self : downloader;
  ls_downloaded : Z;
  ls_failed : Z;
  ls_fetched : list fetch_call
}.

(** How the loop ends: it ran to its end or left by [break], or a
    [KeyboardInterrupt] propagates out of it. *)
Inductive control := Normal | Interrupt.

(** The loop [for i, video in enumerate(videos)] (lines 523-567), from
    position [i] on; [total] is [len(videos)].  The two sleeps of an
    iteration (the extra delay after a failure that is not marked
    permanent, and the countdown of [_human_like_delay] seconds before the
    next video) change no state; the loop only records whether a Ctrl-C
    arrives during them. *)
Fixpoint download_loop (w : world) (total : nat) (i : nat)
    (videos : list video) (st : loop_state) : loop_state * control :=
  match videos with
  | [] => (st, Normal)
  | video :: rest =>
      (* Check daily limit again *)
      if negb (_check_daily_limit (ls_self st)) then (st, Normal)
      (* Check for stop file *)
      else if w_stop w i then (st, Normal)
      else
        let '(self, calls, c) :=
          _download_single_video (ls_self st) video (w_video w i) in
        let fetched := ls_fetched st ++ calls in
        match c with
        | KeyboardInterrupt =>
            ({| ls_self := self; ls_downloaded := ls_downloaded st;
                ls_failed := ls_failed st; ls_fetched := fetched |}, Interrupt)
        | Returns success =>
            let st' :=
              {| ls_self := self;
                 ls_downloaded := if success then ls_downloaded st + 1
                                  else ls_downloaded st;
                 ls_failed := if success then ls_failed st
                              else ls_failed st + 1;
                 ls_fetched := fetched |} in
            let permanent :=
              match failed_videos (progress_data self) !! id video with
              | Some failed_info => permanent_failure failed_info
              | None => false
              end in
            if negb success && negb permanent && w_interrupt_extra w i
            then (st', Interrupt)
            (* Don't wait after last video *)
            else if (Z.of_nat i <? Z.of_nat total - 1) && w_interrupt_wait w i
            then (st', Interrupt)
            else download_loop w total (S i) rest st'
        end
  end.

(** [download_channel]: the final object state, the calls of
    [ydl.download] made, and how the method ends. *)
Definition download_channel (self : downloader) (channel_url : string)
    (limit days : option Z) (w : world) : downloader * list fetch_call * completion :=
  (* Check time restrictions *)
  let time_ok := _check_time_restrictions self (w_hour w) in
  if negb time_ok && String.eqb (stealth_mode self) "paranoid"
  then (self, [], Returns false)
  (* Check daily limit *)
  else if negb (_check_daily_limit self) then (self, [], Returns false)
  else
    (* Get video list *)
    let videos := _get_video_list self (w_reply w) days (w_now w) (w_shuffle w) in
    if bool_decide (videos = []) then (self, [], Returns false)
    else
      (* Apply limit *)
      let videos :=
        match limit with
        | Some l => if l =? 0 then videos else Py.slice_to l videos
        | None => videos
        end in
      (* Adjust limit based on daily limit *)
      let remaining_today :=
        daily_limit (stealth_params self) - downloads_today self in
      let videos :=
        if remaining_today <? Z.of_nat (length videos)
        then Py.slice_to remaining_today videos else videos in
      (* Log channel *)
      let channel_name := "channel_" +:+ w_md5 w channel_url in
      let pd := progress_data self in
      let self := set_progress self
        {| downloaded_videos := downloaded_videos pd;
           failed_videos := failed_videos pd;
           channels := <[channel_name := {| c_url := channel_url;
                                            c_session := session_id self |}]>
                         (channels pd);
           daily_downloads := daily_downloads pd;
           sessions := sessions pd |} in
      let '(st, c) :=
        download_loop w (length videos) 0 videos
          {| ls_self := self; ls_downloaded := 0; ls_failed := 0;
             ls_fetched := [] |} in
      match c with
      | Interrupt => (ls_self st, ls_fetched st, KeyboardInterrupt)
      | Normal =>
          (* Log session *)
          let self := ls_self st in
          let pd := progress_data self in
          let self := set_progress self
            {| downloaded_videos := downloaded_videos pd;
               failed_videos := failed_videos pd;
               channels := channels pd;
               daily_downloads := daily_downloads pd;
               sessions := sessions pd ++
                 [{| s_id := session_id self;
                     s_downloaded := ls_downloaded st;
                     s_failed := ls_failed st;
                     s_channel := channel_url |}] |} in
          (self, ls_fetched st, Returns (ls_failed st =? 0))
      end.

(** The command line, after [argparse]. *)
Record args := {
  a_url : option string;
  a_stealth : string;
  a_min_wait : option Z;
  a_max_wait : option Z;
  a_limit : option Z;
  a_days : option Z;
  a_stats : bool
}.

(** [main]: the exit code of the process, the final object state and the
    calls of [ydl.download] made.  [pd] is the content of the progress
    file, [today] and [sid] the date and the session id at start-up. *)
Definition main (a : args) (pd : progress) (today sid : string) (w : world)
    : Z * downloader * list fetch_call :=
  let downloader :=
    __init__ (default 0 (a_min_wait a)) (default 0 (a_max_wait a))
             (a_stealth a) pd today sid in
  if a_stats a then (0, downloader, [])
  else
    match a_url a with
    | None => (2, downloader, [])          (* [parser.error] *)
    | Some url =>
        if String.eqb url "" then (2, downloader, [])
        else
          match download_channel downloader url (a_limit a) (a_days a) w with
          | (self, fetched, Returns success) =>
              ((if success then 0 else 1), self, fetched)
          | (self, fetched, KeyboardInterrupt) => (130, self, fetched)
          end
    end.

(** The rewriting of the channel URL at the head of [_get_video_list]
    (lines 241-244): the URL the catalog is asked for. *)
Definition videos_tab_url (channel_url : string) : string :=
  if Py.contains "@" channel_url && negb (Py.contains "/videos" channel_url)
  then Py.rstrip_char "/" channel_url +:+ "/videos"
  else channel_url.

End Stealth.

(** * The advanced downloader ([src/yt_channel_advanced.py]) *)

Module Advanced.

(** One entry of the list [_get_video_list_with_metadata] returns. *)
Record video :=
  { id : string; title : string; upload_date : string; channel_name : string }.

(** A value of [progress_data['downloaded_videos']]. *)
Record downloaded_entry :=
  { d_title : string; d_quality : string; d_session : string }.

(** A value of [progress_data['failed_videos']]; [errors] holds the
    recorded error texts, oldest first. *)
Record failed_entry := {
  f_title : string;
  attempts : Z;
  errors : list string;
  permanent_failure : bool
}.

(** A value of [progress_data['sessions']]. *)
Record session_entry :=
  { s_id : string; s_downloaded : Z; s_failed : Z; s_skipped : Z }.

(** [progress_data], with the four keys [_load_progress] creates. *)
Record progress := {
  downloaded_videos : gmap string downloaded_entry;
  failed_videos : gmap string failed_entry;
  channels : gmap string channel_entry;
  sessions : list session_entry
}.

(** [self.stats], without the byte count and the start time. *)
Record stats_t := { downloaded : Z; skipped : Z; failed : Z; total : Z }.

(** The attributes of an [AdvancedChannelDownloader] the orchestrator
    reads or writes. *)
Record downloader := {
  quality : string;
  min_delay : Z;
  max_delay : Z;
  max_retries : Z;
  batch_size : Z;
  progress_data : progress;
  session_id : string;
  downloads_in_session : Z;
  stats : stats_t
}.

Definition update (self : downloader) (pd : progress) (n : Z) (st : stats_t) : downloader :=
  {| quality := quality self; min_delay := min_delay self;
     max_delay := max_delay self; max_retries := max_retries self;
     batch_size := batch_size self; progress_data := pd;
     session_id := session_id self; downloads_in_session := n; stats := st |}.

Definition set_progress (self : downloader) (pd : progress) : downloader :=
  update self pd (downloads_in_session self) (stats self).

Definition set_stats (self : downloader) (st : stats_t) : downloader :=
  update self (progress_data self) (downloads_in_session self) st.

Definition add_skipped (self : downloader) : downloader :=
  let st := stats self in
  set_stats self {| downloaded := downloaded st; skipped := skipped st + 1;
                    failed := failed st; total := total st |}.

Definition add_failed (self : downloader) : downloader :=
  let st := stats self in
  set_stats self {| downloaded := downloaded st; skipped := skipped st;
                    failed := failed st + 1; total := total st |}.

Definition with_downloaded (pd : progress) (m : gmap string downloaded_entry) : progress :=
  {| downloaded_videos := m; failed_videos := failed_videos pd;
     channels := channels pd; sessions := sessions pd |}.

Definition with_failed (pd : progress) (m : gmap string failed_entry) : progress :=
  {| downloaded_videos := downloaded_videos pd; failed_videos := m;
     channels := channels pd; sessions := sessions pd |}.

(** [__init__]; [pd] is what [_load_progress] read. *)
Definition __init__ (quality : string) (min_delay max_delay max_retries batch_size : Z)
    (pd : progress) (sid : string) : downloader :=
  {| quality := quality; min_delay := min_delay; max_delay := max_delay;
     max_retries := max_retries; batch_size := batch_size;
     progress_data := pd; session_id := sid; downloads_in_session := 0;
     stats := {| downloaded := 0; skipped := 0; failed := 0; total := 0 |} |}.

(** [_log_session]. *)
Definition _log_session (self : downloader) : downloader :=
  let pd := progress_data self in
  let session_info :=
    {| s_id := session_id self; s_downloaded := downloaded (stats self);
       s_failed := failed (stats self); s_skipped := skipped (stats self) |} in
  set_progress self
    {| downloaded_videos := downloaded_videos pd;
       failed_videos := failed_videos pd; channels := channels pd;
       sessions := sessions pd ++ [session_info] |}.

(** The draws [_adaptive_delay] takes from [random], as values of
    [random.random()]. *)
Record delay_draws := { r_base : Q; r_jitter : Q; r_break : Q }.

(** The step "Increase delay after multiple downloads" of
    [_adaptive_delay] (lines 124-128). *)
Definition escalate (downloads_in_session : Z) (base_delay : Q) : Q :=
  if 10 <? downloads_in_session then (base_delay * 1.5)%Q
  else if 20 <? downloads_in_session then (base_delay * 2)%Q
  else base_delay.

(** [_adaptive_delay]; [None] is the [ZeroDivisionError] of
    [downloads_in_session % batch_size] for a batch size of zero. *)
Definition _adaptive_delay (self : downloader) (r : delay_draws) : option Q :=
  let base_delay :=
    Py.uniform (inject_Z (min_delay self)) (inject_Z (max_delay self)) (r_base r) in
  let jitter := Py.uniform (-5) 5 (r_jitter r) in
  let base_delay := escalate (downloads_in_session self) base_delay in
  let finish (base_delay : Q) :=
    Py.max (inject_Z (min_delay self)) (base_delay + jitter)%Q in
  if 0 <? downloads_in_session self then
    if batch_size self =? 0 then None
    else if downloads_in_session self mod batch_size self =? 0
    then Some (finish (base_delay + Py.uniform 120 300 (r_break r))%Q)
    else Some (finish base_delay)
  else Some (finish base_delay).

(** [_record_failure]. *)
Definition _record_failure (self : downloader) (video : video) (error : string)
    (permanent : bool) : downloader :=
  let video_id := id video in
  let pd := progress_data self in
  let failed_map :=
    match failed_videos pd !! video_id with
    | None =>
        <[video_id := {| f_title := title video; attempts := 0; errors := [];
                         permanent_failure := permanent |}]> (failed_videos pd)
    | Some _ => failed_videos pd
    end in
  let failed_map :=
    alter (fun fail_record =>
             {| f_title := f_title fail_record;
                attempts := attempts fail_record + 1;
                errors := errors fail_record ++ [String.substring 0 200 error];
                permanent_failure := permanent |})
          video_id failed_map in
  set_progress self (with_failed pd failed_map).

(** The success path of [_download_video_with_fallback] (lines 259-279). *)
Definition record_success (self : downloader) (video : video) (quality : string) : downloader :=
  let video_id := id video in
  let pd := progress_data self in
  let entry := {| d_title := title video; d_quality := quality;
                  d_session := session_id self |} in
  let pd := with_downloaded pd (<[video_id := entry]> (downloaded_videos pd)) in
  let st := stats self in
  let st := {| downloaded := downloaded st + 1; skipped := skipped st;
               failed := failed st; total := total st |} in
  (* Clear any failure records *)
  let pd :=
    if bool_decide (is_Some (failed_videos pd !! video_id))
    then with_failed pd (delete video_id (failed_videos pd)) else pd in
  update self pd (downloads_in_session self + 1) st.

(** The loop [for attempt, quality in enumerate(quality_options)] of
    [_download_video_with_fallback] and the code after it (lines
    219-309), from position [attempt] on; [n_options] is
    [len(quality_options)], [fetch k] is what the [k]-th call of
    [ydl.download] does, [calls] the qualities tried so far. *)
Fixpoint try_qualities (self : downloader) (video : video)
    (fetch : nat -> fetch_result) (n_options : nat) (attempt : nat)
    (qualities : list string) (calls : list string)
    : downloader * list string * completion :=
  match qualities with
  | [] =>
      (* All attempts failed *)
      let self := _record_failure self video "All quality options failed" false in
      (add_failed self, calls, Returns false)
  | quality :: rest =>
      let calls := calls ++ [quality] in
      match fetch attempt with
      | Fetched => (record_success self video quality, calls, Returns true)
      | DownloadError e =>
          let error_msg := Py.lower e in
          if Py.contains "video unavailable" error_msg
             || Py.contains "private video" error_msg then
            (* Mark as permanent failure *)
            let self := _record_failure self video e true in
            (add_skipped self, calls, Returns false)
          else if Py.contains "sign in" error_msg then
            let self := _record_failure self video e false in
            let self :=
              if (Z.of_nat attempt =? Z.of_nat n_options - 1)
              then add_failed self else self in
            try_qualities self video fetch n_options (S attempt) rest calls
          else
            try_qualities self video fetch n_options (S attempt) rest calls
      | OtherException _ =>
          try_qualities self video fetch n_options (S attempt) rest calls
      | Interrupted => (self, calls, KeyboardInterrupt)
      end
  end.

(** [_download_video_with_fallback]: the new object state, the qualities
    [ydl.download] was called with, in order, and how the method ends. *)
Definition _download_video_with_fallback (self : downloader) (video : video)
    (fetch : nat -> fetch_result) : downloader * list string * completion :=
  let video_id := id video in
  let pd := progress_data self in
  (* Check if already downloaded *)
  if bool_decide (is_Some (downloaded_videos pd !! video_id)) then
    (add_skipped self, [], Returns true)
  else
    (* Check failure history *)
    let failed_info := failed_videos pd !! video_id in
    let failed_attempts := from_option attempts 0 failed_info in
    if max_retries self <=? failed_attempts then
      if negb (from_option permanent_failure false failed_info)
      then (add_skipped self, [], Returns false)
      else (self, [], Returns false)
    else
      (* Quality fallback options *)
      let quality_options := Py.dedupe [quality self; "192"; "128"; "96"] in
      try_qualities self video fetch (length quality_options) 0 quality_options [].

(** What a run of [download_channel] reads from outside.  The functions
    are indexed by the position [i] of the video in the loop. *)
Record world := {
  w_videos : list video;                  (* [_get_video_list_with_metadata] *)
  w_fetch : nat -> nat -> fetch_result;   (* call [k] of [ydl.download] for [i] *)
  w_stop : nat -> bool;                   (* the [.stop] file exists at [i] *)
  w_delay : nat -> delay_draws;           (* the draws of the delay after [i] *)
  w_interrupt_wait : nat -> bool          (* Ctrl-C in the countdown after [i] *)
}.

(** The exceptions, other than [KeyboardInterrupt], that can leave
    [download_channel]. *)
Inductive exception := ZeroDivisionError | IndexError.

(** How the loop of [download_channel] ends. *)
Inductive control := Normal | Interrupt | Raise (e : exception).

(** How [download_channel] ends. *)
Inductive run_completion :=
  | RunReturns (value : bool)
  | RunInterrupt
  | RunRaises (e : exception).

(** A call of [ydl.download]: the video and the quality asked for. *)
Definition fetch_call : Type := string * string.

(** The loop [for i, video in enumerate(videos)] of [download_channel]
    (lines 426-440), from position [i] on.  The delay is computed for its
    [ZeroDivisionError] only: its length changes no state. *)
Fixpoint download_loop (w : world) (total : nat) (i : nat)
    (videos : list video) (self : downloader) (fetched : list fetch_call)
    : downloader * list fetch_call * control :=
  match videos with
  | [] => (self, fetched, Normal)
  | video :: rest =>
      (* Check for stop signal *)
      if w_stop w i then (self, fetched, Normal)
      else
        let '(self, calls, c) :=
          _download_video_with_fallback self video (w_fetch w i) in
        let fetched := fetched ++ map (fun q => (id video, q)) calls in
        match c with
        | KeyboardInterrupt => (self, fetched, Interrupt)
        | Returns _ =>
            (* Adaptive delay *)
            if Z.of_nat i <? Z.of_nat total - 1 then
              match _adaptive_delay self (w_delay w i) with
              | None => (self, fetched, Raise ZeroDivisionError)
              | Some _ =>
                  if w_interrupt_wait w i then (self, fetched, Interrupt)
                  else download_loop w total (S i) rest self fetched
              end
            else download_loop w total (S i) rest self fetched
        end
  end.

(** [download_channel]. *)
Definition download_channel (self : downloader) (channel_url : string)
    (limit : option Z) (reverse : bool) (date_after : option string)
    (w : world) : downloader * list fetch_call * run_completion :=
  (* Get video list *)
  let videos := w_videos w in
  if bool_decide (videos = []) then (self, [], RunReturns false)
  else
    (* Filter by date if specified *)
    let videos :=
      match date_after with
      | Some d =>
          if String.eqb d "" then videos
          else
            let cutoff_date := Py.remove_char "-" d in
            List.filter (fun v => String.leb cutoff_date (upload_date v)) videos
      | None => videos
      end in
    (* Reverse order if requested *)
    let videos := if reverse then rev videos else videos in
    (* Apply limit *)
    let videos :=
      match limit with
      | Some l => if l =? 0 then videos else Py.slice_to l videos
      | None => videos
      end in
    let st := stats self in
    let self := set_stats self
      {| downloaded := downloaded st; skipped := skipped st;
         failed := failed st; total := Z.of_nat (length videos) |} in
    (* Extract channel name from first video *)
    match videos with
    | [] => (self, [], RunRaises IndexError)
    | first :: _ =>
        let channel_name := Py.replace_char " " "_" (channel_name first) in
        (* Update channel info *)
        let pd := progress_data self in
        let self := set_progress self
          {| downloaded_videos := downloaded_videos pd;
             failed_videos := failed_videos pd;
             channels := <[channel_name := {| c_url := channel_url;
                                              c_session := session_id self |}]>
                           (channels pd);
             sessions := sessions pd |} in
        match download_loop w (length videos) 0 videos self [] with
        | (self, fetched, Interrupt) => (self, fetched, RunInterrupt)
        | (self, fetched, Raise e) => (self, fetched, RunRaises e)
        | (self, fetched, Normal) =>
            (* Log session and show summary *)
            let self := _log_session self in
            (self, fetched, RunReturns (failed (stats self) =? 0))
        end
    end.

(** [main] from the construction of the downloader on: the exit code of
    the process (1 for an uncaught exception), the final object state
    and the calls of [ydl.download] made. *)
Definition main (self : downloader) (url : string) (limit : option Z)
    (reverse : bool) (date_after : option string) (w : world)
    : Z * downloader * list fetch_call :=
  match download_channel self url limit reverse date_after w with
  | (self, fetched, RunReturns success) =>
      ((if success then 0 else 1), self, fetched)
  | (self, fetched, RunInterrupt) => (130, _log_session self, fetched)
  | (self, fetched, RunRaises _) => (1, self, fetched)
  end.

End Advanced.

(** * The cookie manager ([src/cookie_manager.py]) *)

Module Cookies.

(** A value of [usage_stats]. *)
Record usage := { count : Z; last_used : Q }.

(** The attributes of a [CookieManager]: the cookie files found, as the
    strings of their paths, the usage statistics and the file in use. *)
Record manager := {
  cookie_files : list string;
  usage_stats : gmap string usage;
  current_cookie_file : option string
}.

(** The sort key of [get_next_cookie_file]:
    [usage_stats.get(str(f), {}).get('last_used', 0)]. *)
Definition last_used_of (stats : gmap string usage) (f : string) : Q :=
  from_option last_used 0%Q (stats !! f).

(** [get_next_cookie_file]; [now] is [time.time()]. *)
Definition get_next_cookie_file (self : manager) (now : Q) : manager * option string :=
  match cookie_files self with
  | [] => (self, None)
  | _ =>
      (* Sort by least recently used *)
      let sorted_files :=
        Py.sorted_by (last_used_of (usage_stats self)) (cookie_files self) in
      match sorted_files with
      | [] => (self, None)
      | file_key :: _ =>
          (* Update usage stats *)
          let stats :=
            match usage_stats self !! file_key with
            | None => <[file_key := {| count := 0; last_used := 0 |}]> (usage_stats self)
            | Some _ => usage_stats self
            end in
          let stats :=
            alter (fun u => {| count := count u + 1; last_used := now |}) file_key stats in
          ({| cookie_files := cookie_files self; usage_stats := stats;
              current_cookie_file := Some file_key |},
           Some file_key)
      end
  end.

(** The two keys [get_yt_dlp_opts] may set. *)
Inductive cookie_source :=
  | cookiefile (path : string)
  | cookiesfrombrowser (browser : string).

(** [get_yt_dlp_opts], as the cookie source it adds to the options. *)
Definition get_yt_dlp_opts (self : manager) (now : Q) : manager * cookie_source :=
  match get_next_cookie_file self now with
  | (self, Some cookie_file) => (self, cookiefile cookie_file)
  | (self, None) => (self, cookiesfrombrowser "firefox")
  end.

End Cookies.

(** * Auxiliary definitions *)

(** The world [w] at another hour of the day. *)
Definition with_hour (w : Stealth.world) (hour : Z) : Stealth.world :=
  {| Stealth.w_hour := hour;
     Stealth.w_reply := Stealth.w_reply w;
     Stealth.w_now := Stealth.w_now w;
     Stealth.w_shuffle := Stealth.w_shuffle w;
     Stealth.w_md5 := Stealth.w_md5 w;
     Stealth.w_video := Stealth.w_video w;
     Stealth.w_stop := Stealth.w_stop w;
     Stealth.w_interrupt_extra := Stealth.w_interrupt_extra w;
     Stealth.w_interrupt_wait := Stealth.w_interrupt_wait w |}.

(** The videos the advanced [download_channel] goes on to process (lines
    390-404): the list after the date filter, the reversal and the limit. *)
Definition selected_videos (limit : option Z) (reverse : bool)
    (date_after : option string) (videos : list Advanced.video) : list Advanced.video :=
  let videos :=
    match date_after with
    | Some d =>
        if String.eqb d "" then videos
        else
          let cutoff_date := Py.remove_char "-" d in
          List.filter (fun v => String.leb cutoff_date (Advanced.upload_date v)) videos
    | None => videos
    end in
  let videos := if reverse then rev videos else videos in
  match limit with
  | Some l => if l =? 0 then videos else Py.slice_to l videos
  | None => videos
  end.

(** The videos the stealth [download_channel] goes on to process (lines
    491-499): the list after the limit and the cut to the day's quota. *)
Definition quota_videos (self : Stealth.downloader) (limit : option Z)
    (videos : list Stealth.video) : list Stealth.video :=
  let videos :=
    match limit with
    | Some l => if l =? 0 then videos else Py.slice_to l videos
    | None => videos
    end in
  let remaining_today :=
    Stealth.daily_limit (Stealth.stealth_params self) - Stealth.downloads_today self in
  if remaining_today <? Z.of_nat (length videos)
  then Py.slice_to remaining_today videos else videos.

(** A well-formed video id: eleven characters, not starting with [UC]. *)
Definition valid_id (video_id : string) : Prop :=
  String.length video_id = 11%nat /\ Py.startswith "UC" video_id = false.


Section StealthNotions.

Import Stealth.

(** The attempts recorded for a video, 0 when it has no failure record. *)
Definition attempts_of (self : downloader) (video_id : string) : Z :=
  from_option attempts 0 (failed_videos (progress_data self) !! video_id).

(** The state after a successful download of [video]. *)
Definition mark_downloaded (self : downloader) (video : video) (today : string) : downloader :=
  _update_daily_downloads
    (set_progress self
       (with_downloaded (progress_data self)
          (<[id video := {| d_title := title video; d_session := session_id self |}]>
             (downloaded_videos (progress_data self)))))
    today.

(** The paths through [_download_single_video]. *)
Inductive single_video_path (self : downloader) (video : video) (env : video_env)
    : downloader -> list fetch_call -> completion -> Prop :=
  | path_already_downloaded :
      is_Some (downloaded_videos (progress_data self) !! id video) ->
      single_video_path self video env self [] (Returns true)
  | path_too_many_failures :
      downloaded_videos (progress_data self) !! id video = None ->
      3 <= attempts_of self (id video) ->
      single_video_path self video env self [] (Returns false)
  | path_fetched :
      downloaded_videos (progress_data self) !! id video = None ->
      attempts_of self (id video) < 3 ->
      ve_fetch env = Fetched ->
      single_video_path self video env
        (mark_downloaded self video (ve_today env))
        [{| fc_id := id video; fc_downloads_today := downloads_today self |}]
        (Returns true)
  | path_failed e :
      downloaded_videos (progress_data self) !! id video = None ->
      attempts_of self (id video) < 3 ->
      ve_fetch env = DownloadError e \/ ve_fetch env = OtherException e ->
      single_video_path self video env
        (record_failure self video e)
        [{| fc_id := id video; fc_downloads_today := downloads_today self |}]
        (Returns false)
  | path_interrupted :
      downloaded_videos (progress_data self) !! id video = None ->
      attempts_of self (id video) < 3 ->
      ve_fetch env = Interrupted ->
      single_video_path self video env self
        [{| fc_id := id video; fc_downloads_today := downloads_today self |}]
        KeyboardInterrupt.

(** The quota invariant of a run that started with [count] downloads
    counted for the day: the parameters stay as they are, the counter only
    grows and stays within the limit, and every counter the run writes to
    the progress data is the value of [downloads_today] at that time. *)
Definition quota_inv (prm : params) (daily0 : gmap string Z) (count : Z)
    (self : downloader) : Prop :=
  stealth_params self = prm
  /\ count <= downloads_today self <= Z.max count (daily_limit prm)
  /\ forall d n, daily_downloads (progress_data self) !! d = Some n ->
       daily0 !! d = Some n \/ count < n <= downloads_today self.

End StealthNotions.



Section StealthRunNotions.

Import Stealth.

(** [download_channel] once its three early returns are passed. *)
Definition run_loop (self : downloader) (channel_url : string) (limit : option Z)
    (videos : list video) (w : world) : loop_state * control :=
  let videos := quota_videos self limit videos in
  let pd := progress_data self in
  download_loop w (length videos) 0 videos
    {| ls_self := set_progress self
         {| downloaded_videos := downloaded_videos pd;
            failed_videos := failed_videos pd;
            channels := <[("channel_" +:+ w_md5 w channel_url) :=
                            {| c_url := channel_url; c_session := session_id self |}]>
                          (channels pd);
            daily_downloads := daily_downloads pd;
            sessions := sessions pd |};
       ls_downloaded := 0; ls_failed := 0; ls_fetched := [] |}.

Definition log_session (st : loop_state) (channel_url : string) : downloader :=
  let self := ls_self st in
  let pd := progress_data self in
  set_progress self
    {| downloaded_videos := downloaded_videos pd;
       failed_videos := failed_videos pd;
       channels := channels pd;
       daily_downloads := daily_downloads pd;
       sessions := sessions pd ++
         [{| s_id := session_id self; s_downloaded := ls_downloaded st;
             s_failed := ls_failed st; s_channel := channel_url |}] |}.

End StealthRunNotions.

Section AdvancedNotions.

Import Advanced.

(** [download_channel] once the list is selected and not empty: the state
    with the total counted and the channel logged. *)
Definition prepared (self : downloader) (channel_url : string)
    (videos : list video) (first : video) : downloader :=
  let st := stats self in
  let self := set_stats self
    {| downloaded := downloaded st; skipped := skipped st;
       failed := failed st; total := Z.of_nat (length videos) |} in
  let pd := progress_data self in
  set_progress self
    {| downloaded_videos := downloaded_videos pd;
       failed_videos := failed_videos pd;
       channels := <[Py.replace_char " " "_" (channel_name first) :=
                       {| c_url := channel_url; c_session := session_id self |}]>
                     (channels pd);
       sessions := sessions pd |}.

(** A failure record is well kept when it lists one error text for each
    attempt counted, none longer than 200 characters. *)
Definition well_kept (f : failed_entry) : Prop :=
  Z.of_nat (length (errors f)) = attempts f
  /\ Forall (fun e => (String.length e <= 200)%nat) (errors f).

End AdvancedNotions.

(** The head of a list is least for [key]. *)
Definition head_least {A} (key : A -> Q) (l : list A) : Prop :=
  match l with
  | [] => True
  | f :: _ => forall g, g ∈ l -> (key f <= key g)%Q
  end.

(** * Scenarios *)

(** Two entries of a catalog, with valid ids. *)
Definition entry_a : Stealth.entry :=
  {| Stealth.en_id := Some "aaaaaaaaaaa"; Stealth.en_title := "first"; Stealth.en_timestamp := None |}.

Definition entry_b : Stealth.entry :=
  {| Stealth.en_id := Some "bbbbbbbbbbb"; Stealth.en_title := "second"; Stealth.en_timestamp := None |}.

Definition video_a : Stealth.video :=
  {| Stealth.id := "aaaaaaaaaaa"; Stealth.title := "first" |}.


Definition catalog_two : Stealth.catalog_reply :=
  Stealth.CatalogInfo (Some [Some entry_a; Some entry_b]).

(** A world at noon with no [.stop] file, where download [i] does
    [fetch i] and a Ctrl-C arrives in the countdown after video [i] when
    [interrupt i] holds. *)
Definition world_of (reply : Stealth.catalog_reply) (fetch : nat -> fetch_result)
    (interrupt : nat -> bool) : Stealth.world :=
  {| Stealth.w_hour := 12;
     Stealth.w_reply := reply;
     Stealth.w_now := 1735732800;
     Stealth.w_shuffle := [];
     Stealth.w_md5 := fun _ => "0a1b2c3d";
     Stealth.w_video := fun i =>
       {| Stealth.ve_fetch := fetch i; Stealth.ve_today := "2025-01-01" |};
     Stealth.w_stop := fun _ => false;
     Stealth.w_interrupt_extra := fun _ => false;
     Stealth.w_interrupt_wait := interrupt |}.

(** [yt_stealth_downloader.py URL --stealth low]. *)
Definition low_args : Stealth.args :=
  {| Stealth.a_url := Some "https://www.youtube.com/@channel";
     Stealth.a_stealth := "low";
     Stealth.a_min_wait := None; Stealth.a_max_wait := None;
     Stealth.a_limit := None; Stealth.a_days := None;
     Stealth.a_stats := false |}.

Definition unavailable : string := "ERROR: [youtube] aaaaaaaaaaa: Video unavailable".

Definition rate_limited : string := "ERROR: HTTP Error 429: Too Many Requests".




(** A run over two videos that is interrupted in the countdown after the
    first download. *)
Definition interrupted_run : Z * Stealth.downloader * list Stealth.fetch_call :=
  Stealth.main low_args Stealth.empty_progress "2025-01-01" "session1"
    (world_of catalog_two (fun _ => Fetched) (fun i => bool_decide (i = 0%nat))).

(** The same interruption in the advanced downloader. *)
Definition advanced_video (video_id name : string) : Advanced.video :=
  {| Advanced.id := video_id; Advanced.title := name;
     Advanced.upload_date := "20250101"; Advanced.channel_name := "Some Channel" |}.

Definition advanced_empty : Advanced.progress :=
  {| Advanced.downloaded_videos := ∅; Advanced.failed_videos := ∅;
     Advanced.channels := ∅; Advanced.sessions := [] |}.

Definition advanced_world (fetch : nat -> nat -> fetch_result)
    (interrupt : nat -> bool) : Advanced.world :=
  {| Advanced.w_videos :=
       [advanced_video "aaaaaaaaaaa" "first"; advanced_video "bbbbbbbbbbb" "second"];
     Advanced.w_fetch := fetch;
     Advanced.w_stop := fun _ => false;
     Advanced.w_delay := fun _ =>
       {| Advanced.r_base := 0; Advanced.r_jitter := 1 # 2; Advanced.r_break := 0 |};
     Advanced.w_interrupt_wait := interrupt |}.

Definition advanced_interrupted_run
    : Z * Advanced.downloader * list Advanced.fetch_call :=
  Advanced.main (Advanced.__init__ "192" 45 180 3 5 advanced_empty "session1")
    "https://www.youtube.com/@channel" None false None
    (advanced_world (fun _ _ => Fetched) (fun i => bool_decide (i = 0%nat))).

(** A video whose every download asks to sign in, processed once by the
    advanced downloader started with [--quality 320]. *)
Definition sign_in : string := "ERROR: Sign in to confirm your age".

Definition sign_in_processing
    : Advanced.downloader * list string * completion :=
  Advanced._download_video_with_fallback
    (Advanced.__init__ "320" 45 180 3 5 advanced_empty "session1")
    (advanced_video "aaaaaaaaaaa" "first")
    (fun _ => DownloadError sign_in).

(** A downloader with the default settings of the command line that has
    made [n] downloads in its session. *)
Definition after_downloads (n : Z) : Advanced.downloader :=
  Advanced.update (Advanced.__init__ "192" 45 180 3 5
            {| Advanced.downloaded_videos := ∅; Advanced.failed_videos := ∅; Advanced.channels := ∅;
               Advanced.sessions := [] |} "session1")
         {| Advanced.downloaded_videos := ∅; Advanced.failed_videos := ∅; Advanced.channels := ∅;
            Advanced.sessions := [] |}
         n {| Advanced.downloaded := n; Advanced.skipped := 0; Advanced.failed := 0; Advanced.total := 30 |}.

(** The state the interrupted run left, taken up by a new run. *)
Definition resumed : Stealth.downloader := snd (fst interrupted_run).

(** A stealth downloader in mode [low] whose progress file counts [n]
    downloads for the day. *)
Definition stealth_after (n : Z) : Stealth.downloader :=
  Stealth.__init__ 0 0 "low"
    {| Stealth.downloaded_videos := ∅; Stealth.failed_videos := ∅;
       Stealth.channels := ∅;
       Stealth.daily_downloads := {["2025-01-01" := n]};
       Stealth.sessions := [] |}
    "2025-01-01" "session1".

(** Draws that give the shortest base delay, a variance factor of 1 and no
    break. *)
Definition plain_draws : Stealth.delay_draws :=
  {| Stealth.r_base := 0; Stealth.r_variance := 1 # 2;
     Stealth.r_break := 1 # 2; Stealth.r_break_length := 0 |}.

Definition advanced_resumed : Advanced.downloader := snd (fst advanced_interrupted_run).

(** A stealth downloader in mode [high] on an empty progress file. *)
Definition high_downloader : Stealth.downloader :=
  Stealth.__init__ 0 0 "high" Stealth.empty_progress "2025-01-01" "session1".

(** A run of the stealth downloader over two videos, both downloaded. *)
Definition complete_world : Stealth.world :=
  world_of catalog_two (fun _ => Fetched) (fun _ => false).

Definition complete_run : Z * Stealth.downloader * list Stealth.fetch_call :=
  Stealth.main low_args Stealth.empty_progress "2025-01-01" "session1" complete_world.

(** A run of the advanced downloader in which every download asks to sign
    in. *)
Definition sign_in_run : Z * Advanced.downloader * list Advanced.fetch_call :=
  Advanced.main (Advanced.__init__ "320" 45 180 3 5 advanced_empty "session1")
    "https://www.youtube.com/@channel" None false None
    (advanced_world (fun _ _ => DownloadError sign_in) (fun _ => false)).

(** A cookie manager with two files, neither used yet. *)
Definition two_cookies : Cookies.manager :=
  {| Cookies.cookie_files := ["cookies/a.txt"; "cookies/b.txt"];
     Cookies.usage_stats := ∅;
     Cookies.current_cookie_file := None |}.





(** A catalog of eleven videos, and a run over it in mode [high], whose
    daily limit is 10, in which every download succeeds. *)
Definition eleven_entries : list (option Stealth.entry) :=
  map (fun name =>
         Some {| Stealth.en_id := Some ("video00000" +:+ name);
                 Stealth.en_title := name; Stealth.en_timestamp := None |})
      ["a"; "b"; "c"; "d"; "e"; "f"; "g"; "h"; "i"; "j"; "k"].

Definition high_args : Stealth.args :=
  {| Stealth.a_url := Some "https://www.youtube.com/@channel";
     Stealth.a_stealth := "high";
     Stealth.a_min_wait := None; Stealth.a_max_wait := None;
     Stealth.a_limit := None; Stealth.a_days := None;
     Stealth.a_stats := false |}.

Definition eleven_world : Stealth.world :=
  world_of (Stealth.CatalogInfo (Some eleven_entries)) (fun _ => Fetched)
           (fun _ => false).

Definition eleven_run : Z * Stealth.downloader * list Stealth.fetch_call :=
  Stealth.main high_args Stealth.empty_progress "2025-01-01" "session1" eleven_world.

(** * Properties *)

(** ** Facts about the Python helpers *)

Example contains_ex1 : Py.contains "unavailable" (Py.lower "ERROR: Video Unavailable") = true.
Proof. reflexivity. Qed.

Example contains_ex2 : Py.contains "private" "http error 429" = false.
Proof. reflexivity. Qed.

Example round_ex1 : Py.round (5 # 2) = 2.
Proof. reflexivity. Qed.

Example round_ex2 : Py.round (7 # 2) = 4.
Proof. reflexivity. Qed.

Example round_ex3 : Py.round (-(3 # 2)) = -2.
Proof. reflexivity. Qed.

Example dedupe_ex : Py.dedupe ["128"; "192"; "128"; "96"] = ["128"; "192"; "96"].
Proof. reflexivity. Qed.

Example shuffle_ex : Py.shuffle [0; 0]%nat ["a"; "b"; "c"] = ["b"; "c"; "a"].
Proof. reflexivity. Qed.

Example slice_ex : Py.slice_to (-1) [1; 2; 3] = [1; 2].
Proof. reflexivity. Qed.

Example is_permanent_ex :
  Stealth.is_permanent unavailable = true /\ Stealth.is_permanent rate_limited = false.
Proof. split; reflexivity. Qed.

Example human_like_delay_ex :
  (Stealth._human_like_delay (stealth_after 0)
     {| Stealth.r_base := 0; Stealth.r_variance := 0;
        Stealth.r_break := 1 # 2; Stealth.r_break_length := 0 |} == 120)%Q
  /\ (Stealth._human_like_delay (stealth_after 0)
        {| Stealth.r_base := 1 # 2; Stealth.r_variance := 1 # 2;
           Stealth.r_break := 0; Stealth.r_break_length := 1 # 3 |} == 1560)%Q.
Proof. vm_compute. done. Qed.

Example check_time_ex :
  Stealth._check_time_restrictions (Stealth.__init__ 0 0 "medium" Stealth.empty_progress
                                      "2025-01-01" "s") 23 = false
  /\ Stealth._check_time_restrictions (Stealth.__init__ 0 0 "medium" Stealth.empty_progress
                                         "2025-01-01" "s") 7 = true
  /\ Stealth._check_time_restrictions (Stealth.__init__ 0 0 "high" Stealth.empty_progress
                                         "2025-01-01" "s") 17 = false.
Proof. vm_compute. done. Qed.

Example video_of_entry_ex :
  Stealth.video_of_entry None
    (Some {| Stealth.en_id := Some "UCaaaaaaaaa"; Stealth.en_title := "channel";
             Stealth.en_timestamp := None |}) = None
  /\ Stealth.video_of_entry (Some 100)
       (Some {| Stealth.en_id := Some "aaaaaaaaaaa"; Stealth.en_title := "old";
                Stealth.en_timestamp := Some 99 |}) = None
  /\ Stealth.video_of_entry (Some 100) (Some entry_a) = Some video_a.
Proof. vm_compute. done. Qed.

Section PyFacts.

Lemma Qltb_lt x y : Py.Qltb x y = true <-> (x < y)%Q.
Proof.
  unfold Py.Qltb. rewrite negb_true_iff, <- not_true_iff_false, Qle_bool_iff.
  split; [apply Qnot_le_lt | apply Qlt_not_le].
Qed.

Lemma Qltb_ge x y : Py.Qltb x y = false <-> (y <= x)%Q.
Proof. unfold Py.Qltb. rewrite negb_false_iff. apply Qle_bool_iff. Qed.

Lemma max_lower_bound (a b : Q) : (a <= Py.max a b)%Q.
Proof.
  unfold Py.max. destruct (Py.Qltb a b) eqn:E.
  - apply Qltb_lt in E. apply Qlt_le_weak, E.
  - apply Qle_refl.
Qed.

Lemma max_cases (a b : Q) : Py.max a b = a \/ Py.max a b = b.
Proof. unfold Py.max. destruct (Py.Qltb a b); auto. Qed.

(** [round] moves a number by at most one half. *)
Lemma round_near (x : Q) :
  (x - (1 # 2) <= inject_Z (Py.round x) <= x + (1 # 2))%Q.
Proof.
  pose proof (Qfloor_le x) as Hlo.
  pose proof (Qlt_floor x) as Hhi.
  unfold Py.round.
  set (f := Qfloor x) in *.
  assert (Hf1 : (inject_Z (f + 1) == inject_Z f + 1)%Q)
    by (rewrite inject_Z_plus; reflexivity).
  rewrite Hf1 in Hhi.
  destruct (Py.Qltb (x - inject_Z f) (1 # 2)) eqn:E1.
  { apply Qltb_lt in E1. split; lra. }
  apply Qltb_ge in E1.
  destruct (Py.Qltb (1 # 2) (x - inject_Z f)) eqn:E2.
  { rewrite Hf1. split; lra. }
  apply Qltb_ge in E2.
  destruct (Z.even f); [|rewrite Hf1]; split; lra.
Qed.

Lemma swap_head {A} (x b : A) (l : list A) (j : nat) :
  l !! j = Some b -> x :: l ≡ₚ b :: <[j := x]> l.
Proof.
  revert j. induction l as [|y l IH]; intros [|j] Hj; simplify_eq/=.
  - apply perm_swap.
  - rewrite (perm_swap y x l), (IH _ Hj). apply perm_swap.
Qed.

Lemma swap_Permutation {A} (i j : nat) (l : list A) : Py.swap i j l ≡ₚ l.
Proof.
  unfold Py.swap.
  destruct (l !! i) as [a|] eqn:Hi; [|done].
  destruct (l !! j) as [b|] eqn:Hj; [|done].
  revert i j Hi Hj.
  induction l as [|x l IH]; intros [|i] [|j] Hi Hj; simplify_eq/=.
  - reflexivity.
  - symmetry. by apply swap_head.
  - symmetry. by apply swap_head.
  - f_equiv. by apply IH.
Qed.

Lemma shuffle_from_Permutation {A} (i : nat) (draws : list nat) (l : list A) :
  Py.shuffle_from i draws l ≡ₚ l.
Proof.
  revert draws l. induction i as [|i IH]; intros draws l; simpl; [done|].
  rewrite IH. apply swap_Permutation.
Qed.

(** Whatever the draws, [random.shuffle] rearranges the list. *)
Lemma shuffle_Permutation {A} (draws : list nat) (l : list A) :
  Py.shuffle draws l ≡ₚ l.
Proof. apply shuffle_from_Permutation. Qed.

End PyFacts.

(** ** The pacing delay *)

Section DelayFacts.

Import Stealth.

Lemma round_delay_cases (delay : Q) :
  ((delay < 300)%Q /\ round_delay delay = inject_Z (Py.round (delay / 10) * 10)
   /\ (delay - 5 <= round_delay delay <= delay + 5)%Q)
  \/ ((300 <= delay)%Q /\ round_delay delay = inject_Z (Py.round (delay / 60) * 60)
      /\ (delay - 30 <= round_delay delay <= delay + 30)%Q).
Proof.
  unfold round_delay. destruct (Py.Qltb delay 300) eqn:E.
  - apply Qltb_lt in E. left. split; [done|]. split; [done|].
    pose proof (round_near (delay / 10)) as [Hlo Hhi].
    rewrite inject_Z_mult.
    assert (Hd : (delay == delay / 10 * inject_Z 10)%Q) by (field).
    set (k := inject_Z (Py.round (delay / 10))) in *.
    set (y := (delay / 10)%Q) in *.
    change (inject_Z 10) with (10%Q) in *.
    split; nra.
  - apply Qltb_ge in E. right. split; [done|]. split; [done|].
    pose proof (round_near (delay / 60)) as [Hlo Hhi].
    rewrite inject_Z_mult.
    assert (Hd : (delay == delay / 60 * inject_Z 60)%Q) by (field).
    set (k := inject_Z (Py.round (delay / 60))) in *.
    set (y := (delay / 60)%Q) in *.
    change (inject_Z 60) with (60%Q) in *.
    split; nra.
Qed.

(** C6.  For every draw of the random source, [_human_like_delay] returns a
    value that is at least [min_wait].  The value is [min_wait] itself or
    the rounded delay, and the rounded delay is the raw delay rounded to
    the nearest multiple of 10 seconds when the raw delay is below 300
    seconds and to the nearest multiple of 60 seconds otherwise. *)
Theorem human_like_delay_at_least_min_wait (self : downloader) (r : delay_draws) :
  let base_min := inject_Z (p_min_wait (stealth_params self)) in
  let raw := raw_delay self r in
  let rounded := round_delay raw in
  let result := _human_like_delay self r in
  (base_min <= result)%Q
  /\ (result = base_min \/ result = rounded)
  /\ (rounded <= result)%Q
  /\ (((raw < 300)%Q /\ rounded = inject_Z (Py.round (raw / 10) * 10)
       /\ (raw - 5 <= rounded <= raw + 5)%Q)
      \/ ((300 <= raw)%Q /\ rounded = inject_Z (Py.round (raw / 60) * 60)
          /\ (raw - 30 <= rounded <= raw + 30)%Q)).
Proof.
  intros base_min raw rounded result.
  split; [apply max_lower_bound|].
  split; [apply max_cases|].
  split; [|apply round_delay_cases].
  subst result. unfold _human_like_delay. fold base_min raw rounded.
  unfold Py.max. destruct (Py.Qltb base_min rounded) eqn:E.
  - apply Qle_refl.
  - by apply Qltb_ge in E.
Qed.

End DelayFacts.

Section EscalationFacts.

Import Advanced.

(** The second branch of the escalation can never be taken: past ten
    downloads the first branch applies, whatever the count. *)
Lemma escalate_over_10 (n : Z) (d : Q) : 10 < n -> escalate n d = (d * 1.5)%Q.
Proof. intros Hn. unfold escalate. by rewrite (proj2 (Z.ltb_lt 10 n) Hn). Qed.

Lemma escalate_up_to_10 (n : Z) (d : Q) : n <= 10 -> escalate n d = d.
Proof.
  intros Hn. unfold escalate.
  rewrite (proj2 (Z.ltb_ge 10 n) Hn).
  by rewrite (proj2 (Z.ltb_ge 20 n)) by lia.
Qed.

(** In [_human_like_delay] the thresholds are 5 and 10, and the second
    branch is as unreachable. *)
Lemma stealth_escalation_after_21_downloads :
  (Stealth.raw_delay (stealth_after 21) plain_draws == 180)%Q
  /\ (Stealth.raw_delay (stealth_after 5) plain_draws == 120)%Q
  /\ (Stealth.raw_delay (stealth_after 6) plain_draws == 180)%Q.
Proof. vm_compute. done. Qed.

(** C2, evaluated on the code.  With 21 downloads made in the session the
    escalation step of [_adaptive_delay] multiplies the base delay by 1.5,
    not by 2: with a base draw of 45 seconds and no jitter the delay is
    67.5 seconds, where a factor of 2 would give 90.  The step of
    [_human_like_delay] does the same with a base delay of 120 seconds:
    180 seconds, not 240. *)
Theorem adaptive_delay_after_21_downloads :
  (forall d : Q, escalate 21 d = (d * 1.5)%Q)
  /\ (exists q : Q,
       _adaptive_delay (after_downloads 21)
         {| r_base := 0; r_jitter := 1 # 2; r_break := 0 |} = Some q
       /\ (q == 67.5)%Q /\ ~ (q == 90)%Q)
  /\ (Stealth.raw_delay (stealth_after 21) plain_draws == 180)%Q
  /\ ~ (Stealth.raw_delay (stealth_after 21) plain_draws == 240)%Q.
Proof.
  split; [intros d; by apply escalate_over_10|].
  split.
  { eexists. split; [vm_compute; reflexivity|]. split; [reflexivity|discriminate]. }
  vm_compute. split; [done|discriminate].
Qed.

End EscalationFacts.

(** ** The order of the video list *)

Section VideoListFacts.

Import Stealth.

(** In the modes [high] and [paranoid] the list [_get_video_list]
    returns is, for every outcome of the shuffle, a rearrangement of the
    videos the catalog listed, and two outcomes of the shuffle can give two
    different orders; in the modes [low] and [medium] the list is the
    catalog's, in its order. *)
Theorem video_list_shuffled_in_high_and_paranoid
    (min_wait max_wait : Z) (pd : progress) (today sid : string)
    (reply : catalog_reply) (days : option Z) (now : Z) (draws : list nat) :
  let downloader mode := __init__ min_wait max_wait mode pd today sid in
  let listed := listed_videos reply days now in
  _get_video_list (downloader "high") reply days now draws ≡ₚ listed
  /\ _get_video_list (downloader "paranoid") reply days now draws ≡ₚ listed
  /\ _get_video_list (downloader "low") reply days now draws = listed
  /\ _get_video_list (downloader "medium") reply days now draws = listed
  /\ (let two := CatalogInfo (Some [Some entry_a; Some entry_b]) in
      _get_video_list (downloader "high") two days now [0%nat]
      <> _get_video_list (downloader "high") two days now [1%nat]).
Proof.
  intros downloader listed.
  split; [apply shuffle_Permutation|].
  split; [apply shuffle_Permutation|].
  split; [reflexivity|]. split; [reflexivity|].
  unfold _get_video_list, listed_videos. simpl.
  destruct days as [d|]; [destruct (d =? 0)|]; simpl; vm_compute; discriminate.
Qed.

End VideoListFacts.

(** ** Runs of the stealth downloader *)

Section StealthRunFacts.

Import Stealth.

Lemma download_single_video_path self video env self' calls c :
  _download_single_video self video env = (self', calls, c) ->
  single_video_path self video env self' calls c.
Proof.
  unfold _download_single_video. case_bool_decide as Hd.
  { intros [= <- <- <-]. by constructor. }
  assert (Hnone : downloaded_videos (progress_data self) !! id video = None).
  { destruct (downloaded_videos (progress_data self) !! id video) eqn:E; [|done].
    exfalso. apply Hd. eauto. }
  assert (Hatt : match failed_videos (progress_data self) !! id video with
                 | Some failed_info => attempts failed_info
                 | None => 0
                 end = attempts_of self (id video)).
  { unfold attempts_of. by destruct (failed_videos (progress_data self) !! id video). }
  rewrite Hatt. destruct (3 <=? attempts_of self (id video)) eqn:E3.
  { apply Z.leb_le in E3. intros [= <- <- <-]. by constructor. }
  apply Z.leb_gt in E3.
  destruct (ve_fetch env) as [|e|e|] eqn:Ef; intros [= <- <- <-].
  - by apply path_fetched.
  - apply path_failed; auto.
  - apply path_failed; auto.
  - by apply path_interrupted.
Qed.

(** A property [P] of the object state and a property [T] of the calls of
    [ydl.download] that every processing of a video maintains are
    maintained by the loop and by the whole of [download_channel]. *)
Section Invariant.

Variable P : downloader -> Prop.
Variable T : fetch_call -> Prop.

Hypothesis step : forall self video env self' calls c,
  P self -> _check_daily_limit self = true ->
  single_video_path self video env self' calls c ->
  P self' /\ Forall T calls.

Hypothesis log : forall self pd,
  P self ->
  downloaded_videos pd = downloaded_videos (progress_data self) ->
  failed_videos pd = failed_videos (progress_data self) ->
  daily_downloads pd = daily_downloads (progress_data self) ->
  P (set_progress self pd).

Lemma download_loop_invariant w total videos : forall i st st' c,
  P (ls_self st) -> Forall T (ls_fetched st) ->
  download_loop w total i videos st = (st', c) ->
  P (ls_self st') /\ Forall T (ls_fetched st').
Proof.
  induction videos as [|video rest IH]; intros i st st' c HP HT; simpl.
  { intros [= <- <-]. done. }
  destruct (_check_daily_limit (ls_self st)) eqn:Hlimit; simpl;
    [|intros [= <- <-]; done].
  destruct (w_stop w i); [intros [= <- <-]; done|].
  destruct (_download_single_video (ls_self st) video (w_video w i))
    as [[self1 calls] c1] eqn:Hsingle.
  apply download_single_video_path in Hsingle.
  destruct (step _ _ _ _ _ _ HP Hlimit Hsingle) as [HP1 HT1].
  assert (HT' : Forall T (ls_fetched st ++ calls)) by (by apply Forall_app).
  destruct c1 as [success|]; [|intros [= <- <-]; done].
  repeat match goal with
         | |- context [if ?b then _ else _] =>
             match b with
             | context [w_interrupt_extra] => destruct b
             | context [w_interrupt_wait] => destruct b
             end
         end;
    try (intros [= <- <-]; done); apply IH; done.
Qed.

Lemma download_channel_invariant self url limit days w self' fetched c :
  P self ->
  download_channel self url limit days w = (self', fetched, c) ->
  P self' /\ Forall T fetched.
Proof.
  intros HP. unfold download_channel.
  destruct (negb (_check_time_restrictions self (w_hour w))
            && String.eqb (stealth_mode self) "paranoid");
    [intros [= <- <- <-]; done|].
  destruct (negb (_check_daily_limit self)); [intros [= <- <- <-]; done|].
  case_bool_decide; [intros [= <- <- <-]; done|].
  match goal with
  | |- context [download_loop w ?n 0 ?vs ?st] =>
      destruct (download_loop w n 0 vs st) as [st1 c1] eqn:Hloop
  end.
  apply download_loop_invariant in Hloop as [HP1 HT1]; simpl; auto.
  destruct c1; intros [= <- <- <-]; auto.
Qed.

End Invariant.

End StealthRunFacts.

(** ** Runs of the advanced downloader *)

Section AdvancedRunFacts.

Import Advanced.

Lemma record_failure_downloaded self video e permanent :
  downloaded_videos (progress_data (_record_failure self video e permanent))
  = downloaded_videos (progress_data self).
Proof. reflexivity. Qed.

(** A property [P] of the object state and a property [T] of the calls of
    [ydl.download] that the bookkeeping steps maintain for a video without
    a download record are maintained by every method of the downloader. *)
Section Invariant.

Variable P : downloader -> Prop.
Variable T : fetch_call -> Prop.

Hypothesis P_stats : forall self st, P self -> P (set_stats self st).

Hypothesis P_log : forall self pd,
  P self ->
  downloaded_videos pd = downloaded_videos (progress_data self) ->
  failed_videos pd = failed_videos (progress_data self) ->
  P (set_progress self pd).

Hypothesis P_failure : forall self video e permanent,
  P self -> downloaded_videos (progress_data self) !! id video = None ->
  P (_record_failure self video e permanent).

Hypothesis P_success : forall self video quality,
  P self -> downloaded_videos (progress_data self) !! id video = None ->
  P (record_success self video quality).

Hypothesis T_call : forall self video quality,
  P self -> downloaded_videos (progress_data self) !! id video = None ->
  T (id video, quality).

Lemma try_qualities_invariant video fetch n qualities :
  forall attempt self calls self' calls' c,
  P self -> downloaded_videos (progress_data self) !! id video = None ->
  Forall T (map (fun q => (id video, q)) calls) ->
  try_qualities self video fetch n attempt qualities calls = (self', calls', c) ->
  P self' /\ Forall T (map (fun q => (id video, q)) calls').
Proof.
  induction qualities as [|quality rest IH];
    intros attempt self calls self' calls' c HP Hnone HT; simpl.
  { intros [= <- <- <-]. split; [|done].
    apply P_stats. by apply P_failure. }
  assert (HT' : Forall T (map (fun q => (id video, q)) (calls ++ [quality]))).
  { rewrite map_app. apply Forall_app. split; [done|].
    repeat constructor. by eapply T_call. }
  destruct (fetch attempt) as [|e|e|].
  - intros [= <- <- <-]. split; [|done]. by apply P_success.
  - destruct (Py.contains "video unavailable" (Py.lower e)
              || Py.contains "private video" (Py.lower e)).
    { intros [= <- <- <-]. split; [|done]. apply P_stats. by apply P_failure. }
    destruct (Py.contains "sign in" (Py.lower e)); [|by apply IH].
    apply IH; [| |done].
    + destruct (Z.of_nat attempt =? Z.of_nat n - 1);
        [apply P_stats|]; by apply P_failure.
    + by destruct (Z.of_nat attempt =? Z.of_nat n - 1).
  - by apply IH.
  - intros [= <- <- <-]. done.
Qed.

Lemma download_video_with_fallback_invariant self video fetch self' calls c :
  P self ->
  _download_video_with_fallback self video fetch = (self', calls, c) ->
  P self' /\ Forall T (map (fun q => (id video, q)) calls).
Proof.
  intros HP. unfold _download_video_with_fallback.
  case_bool_decide as Hd.
  { intros [= <- <- <-]. split; [by apply P_stats|done]. }
  assert (Hnone : downloaded_videos (progress_data self) !! id video = None).
  { destruct (downloaded_videos (progress_data self) !! id video) eqn:E; [|done].
    exfalso. apply Hd. eauto. }
  destruct (max_retries self <=? _).
  { destruct (negb _); intros [= <- <- <-]; split; try done. by apply P_stats. }
  intros Htry. eapply try_qualities_invariant in Htry; eauto.
Qed.

Lemma advanced_loop_invariant w total videos : forall i self fetched self' fetched' c,
  P self -> Forall T fetched ->
  download_loop w total i videos self fetched = (self', fetched', c) ->
  P self' /\ Forall T fetched'.
Proof.
  induction videos as [|video rest IH]; intros i self fetched self' fetched' c HP HT; simpl.
  { intros [= <- <- <-]. done. }
  destruct (w_stop w i); [intros [= <- <- <-]; done|].
  destruct (_download_video_with_fallback self video (w_fetch w i))
    as [[self1 calls] c1] eqn:Hone.
  apply download_video_with_fallback_invariant in Hone as [HP1 HT1]; [|done].
  assert (HT' : Forall T (fetched ++ map (fun q => (id video, q)) calls))
    by (by apply Forall_app).
  destruct c1 as [success|]; [|intros [= <- <- <-]; done].
  destruct (Z.of_nat i <? Z.of_nat total - 1); [|by apply IH].
  destruct (_adaptive_delay self1 (w_delay w i)); [|intros [= <- <- <-]; done].
  destruct (w_interrupt_wait w i); [intros [= <- <- <-]; done|by apply IH].
Qed.

Lemma advanced_channel_invariant self url limit reverse date_after w self' fetched c :
  P self ->
  download_channel self url limit reverse date_after w = (self', fetched, c) ->
  P self' /\ Forall T fetched.
Proof.
  intros HP. unfold download_channel.
  case_bool_decide; [intros [= <- <- <-]; done|].
  match goal with
  | |- context [match ?vs with [] => _ | first :: _ => _ end] =>
      destruct vs as [|first rest] eqn:Hvideos
  end.
  { intros [= <- <- <-]. split; [by apply P_stats|done]. }
  match goal with
  | |- context [download_loop w ?n 0 ?vs ?s ?f] =>
      destruct (download_loop w n 0 vs s f) as [[self1 fetched1] c1] eqn:Hloop
  end.
  apply advanced_loop_invariant in Hloop as [HP1 HT1]; [| |done].
  - destruct c1; intros [= <- <- <-]; split; try done.
    unfold _log_session. by apply P_log.
  - apply P_log; [by apply P_stats|done|done].
Qed.

Lemma advanced_main_invariant self url limit reverse date_after w code self' fetched :
  P self ->
  main self url limit reverse date_after w = (code, self', fetched) ->
  P self' /\ Forall T fetched.
Proof.
  intros HP. unfold main.
  destruct (download_channel self url limit reverse date_after w)
    as [[self1 fetched1] c1] eqn:Hrun.
  apply advanced_channel_invariant in Hrun as [HP1 HT1]; [|done].
  destruct c1; intros [= <- <- <-]; split; try done.
  unfold _log_session. by apply P_log.
Qed.

End Invariant.

End AdvancedRunFacts.

(** ** The daily quota *)

Section QuotaFacts.

Import Stealth.

Lemma slice_to_length {A} (n : Z) (l : list A) :
  0 <= n -> Z.of_nat (length (Py.slice_to n l)) <= n.
Proof.
  intros Hn. unfold Py.slice_to.
  rewrite (proj2 (Z.leb_le 0 n) Hn), length_take. lia.
Qed.

Lemma single_video_path_calls self video env self' calls c :
  single_video_path self video env self' calls c -> (length calls <= 1)%nat.
Proof. destruct 1; simpl; lia. Qed.

Lemma download_loop_fetch_count w total videos : forall i st st' c,
  download_loop w total i videos st = (st', c) ->
  (length (ls_fetched st') <= length (ls_fetched st) + length videos)%nat.
Proof.
  induction videos as [|video rest IH]; intros i st st' c; simpl.
  { intros [= <- <-]. lia. }
  destruct (negb (_check_daily_limit (ls_self st))); [intros [= <- <-]; lia|].
  destruct (w_stop w i); [intros [= <- <-]; lia|].
  destruct (_download_single_video (ls_self st) video (w_video w i))
    as [[self1 calls] c1] eqn:Hsingle.
  apply download_single_video_path, single_video_path_calls in Hsingle.
  destruct c1 as [success|];
    [|intros [= <- <-]; simpl; rewrite length_app; lia].
  repeat match goal with
         | |- context [if ?b then _ else _] =>
             match b with
             | context [w_interrupt_extra] => destruct b
             | context [w_interrupt_wait] => destruct b
             end
         end;
    try (intros [= <- <-]; simpl; rewrite length_app; lia);
    intros Hloop; apply IH in Hloop; simpl in Hloop;
    rewrite length_app in Hloop; lia.
Qed.

(** The calls of [ydl.download] in one run are no more than the quota
    left at its start. *)
Lemma download_channel_fetch_count self url limit days w self' fetched c :
  download_channel self url limit days w = (self', fetched, c) ->
  Z.of_nat (length fetched)
  <= Z.max 0 (daily_limit (stealth_params self) - downloads_today self).
Proof.
  unfold download_channel.
  destruct (negb (_check_time_restrictions self (w_hour w))
            && String.eqb (stealth_mode self) "paranoid");
    [intros [= <- <- <-]; simpl; lia|].
  unfold _check_daily_limit at 1.
  destruct (daily_limit (stealth_params self) <=? downloads_today self) eqn:Hlimit;
    simpl; [intros [= <- <- <-]; simpl; lia|].
  apply Z.leb_gt in Hlimit.
  case_bool_decide; [intros [= <- <- <-]; simpl; lia|].
  set (remaining := daily_limit (stealth_params self) - downloads_today self).
  match goal with
  | |- context [download_loop w (length ?vs) 0 ?vs ?st] =>
      set (videos := vs);
      destruct (download_loop w (length videos) 0 videos st) as [st1 c1] eqn:Hloop
  end.
  apply download_loop_fetch_count in Hloop. simpl in Hloop.
  assert (Hlen : Z.of_nat (length videos) <= remaining).
  { subst videos.
    match goal with
    | |- context [if remaining <? Z.of_nat (length ?l) then _ else _] =>
        destruct (remaining <? Z.of_nat (length l)) eqn:E
    end.
    - apply slice_to_length. lia.
    - by apply Z.ltb_ge in E. }
  destruct c1; intros [= <- <- <-]; lia.
Qed.

Lemma quota_inv_step prm daily0 count self video env self' calls c :
  quota_inv prm daily0 count self -> _check_daily_limit self = true ->
  single_video_path self video env self' calls c ->
  quota_inv prm daily0 count self'
  /\ Forall (fun call => count <= fc_downloads_today call < daily_limit prm) calls.
Proof.
  intros (Hprm & Hcount & Hdaily) Hlimit Hpath.
  unfold _check_daily_limit in Hlimit. rewrite Hprm in Hlimit.
  destruct (daily_limit prm <=? downloads_today self) eqn:E; [done|].
  apply Z.leb_gt in E.
  destruct Hpath; (split; [|repeat constructor; simpl; lia]).
  - done.
  - done.
  - split; [done|]. split; [simpl; lia|].
    intros d n. simpl. destruct (decide (ve_today env = d)) as [->|Hne].
    + rewrite lookup_insert_eq. intros [= <-]. right. lia.
    + rewrite lookup_insert_ne by done. intros Hd.
      destruct (Hdaily d n Hd) as [?|?]; [by left|right; lia].
  - done.
  - done.
Qed.

Lemma quota_inv_log prm daily0 count self pd :
  quota_inv prm daily0 count self ->
  downloaded_videos pd = downloaded_videos (progress_data self) ->
  failed_videos pd = failed_videos (progress_data self) ->
  daily_downloads pd = daily_downloads (progress_data self) ->
  quota_inv prm daily0 count (set_progress self pd).
Proof.
  intros (Hprm & Hcount & Hdaily) _ _ Hsame.
  split; [done|]. split; [done|]. simpl. by rewrite Hsame.
Qed.

(** C5.  In every run, [downloads_today] starts as the counter the progress
    file holds for the current date; [ydl.download] is only ever called
    while that counter is below [daily_limit], so a run that starts with
    the counter at the limit makes no call and a run whose counter reaches
    the limit makes no further call; the calls of a run are no more than
    the quota left at its start, the counter never passes the limit from
    below, and every counter the run persists is the value of
    [downloads_today] when it was written. *)
Theorem no_fetch_once_daily_limit_reached
    (a : args) (pd : progress) (today sid : string) (w : world) :
  let self := __init__ (default 0 (a_min_wait a)) (default 0 (a_max_wait a))
                       (a_stealth a) pd today sid in
  let limit := daily_limit (stealth_params self) in
  let count := default 0 (daily_downloads pd !! today) in
  let '(code, self', fetched) := main a pd today sid w in
  downloads_today self = count
  /\ Forall (fun call => count <= fc_downloads_today call < limit) fetched
  /\ Z.of_nat (length fetched) <= Z.max 0 (limit - count)
  /\ (fetched = [] \/ count < limit)
  /\ count <= downloads_today self' <= Z.max count limit
  /\ forall d n, daily_downloads (progress_data self') !! d = Some n ->
       daily_downloads pd !! d = Some n \/ count < n <= downloads_today self'.
Proof.
  intros self limit count.
  destruct (main a pd today sid w) as [[code self'] fetched] eqn:Hmain.
  assert (Hinv0 : quota_inv (stealth_params self) (daily_downloads pd) count self).
  { split; [done|]. split; [simpl; unfold _get_downloads_today; lia|]. by left. }
  assert (Hall : quota_inv (stealth_params self) (daily_downloads pd) count self'
                 /\ Forall (fun call => count <= fc_downloads_today call < limit) fetched
                 /\ Z.of_nat (length fetched) <= Z.max 0 (limit - count)).
  { revert Hmain. unfold main. fold self.
    destruct (a_stats a); [intros [= <- <- <-]; simpl; split_and!; [done|done|lia]|].
    destruct (a_url a) as [url|];
      [|intros [= <- <- <-]; simpl; split_and!; [done|done|lia]].
    destruct (String.eqb url "");
      [intros [= <- <- <-]; simpl; split_and!; [done|done|lia]|].
    destruct (download_channel self url (a_limit a) (a_days a) w)
      as [[self1 fetched1] c1] eqn:Hrun.
    pose proof (download_channel_fetch_count _ _ _ _ _ _ _ _ Hrun) as Hcount.
    eapply (download_channel_invariant
              (quota_inv (stealth_params self) (daily_downloads pd) count)
              (fun call => count <= fc_downloads_today call < limit))
      in Hrun as [HP HT]; [| |apply quota_inv_log|done].
    - destruct c1 as [[]|]; intros [= <- <- <-]; done.
    - intros. by eapply quota_inv_step. }
  destruct Hall as ((Hprm & Hcount & Hdaily) & HT & Hlen).
  split; [done|]. split; [done|]. split; [done|].
  split; [|split; [done|done]].
  destruct fetched as [|call rest]; [by left|right].
  apply Forall_cons in HT as [Hcall _]. lia.
Qed.

End QuotaFacts.

(** ** Interruption *)

(** C3, evaluated on the code.  A Ctrl-C in the countdown after the first
    of two downloads ends the stealth downloader with exit code 130 and the
    download recorded, but with no session record appended: the sessions
    history is as empty as before the run.  The advanced downloader, in the
    same situation, appends the session record with the partial counts
    before it exits with 130. *)
Theorem interrupted_run_appends_no_session :
  (let '(code, self', fetched) := interrupted_run in
   code = 130
   /\ map Stealth.fc_id fetched = ["aaaaaaaaaaa"]
   /\ is_Some (Stealth.downloaded_videos (Stealth.progress_data self') !! "aaaaaaaaaaa")
   /\ Stealth.sessions (Stealth.progress_data self') = [])
  /\ (let '(code, self', fetched) := advanced_interrupted_run in
      code = 130
      /\ Advanced.sessions (Advanced.progress_data self')
         = [{| Advanced.s_id := "session1"; Advanced.s_downloaded := 1;
               Advanced.s_failed := 0; Advanced.s_skipped := 0 |}]).
Proof. vm_compute. split_and!; eauto. Qed.

(** ** Attempts *)

(** C7, evaluated on the code.  One processing of a video by the advanced
    downloader with [max_retries = 3], when each of the four downloads it
    tries asks to sign in, records five attempts: one for each quality
    tried and one more after the loop. *)
Theorem sign_in_failures_exceed_max_retries :
  let '(self', calls, c) := sign_in_processing in
  calls = ["320"; "192"; "128"; "96"]
  /\ c = Returns false
  /\ Advanced.max_retries self' = 3
  /\ (Advanced.attempts <$>
        Advanced.failed_videos (Advanced.progress_data self') !! "aaaaaaaaaaa")
     = Some 5
  /\ Advanced.failed (Advanced.stats self') = 2.
Proof. vm_compute. split_and!; eauto. Qed.

Section AttemptFacts.

Import Stealth.

Lemma record_failure_lookup self video e :
  failed_videos (progress_data (record_failure self video e)) !! id video
  = Some {| f_title := from_option f_title (title video)
                         (failed_videos (progress_data self) !! id video);
            attempts := attempts_of self (id video) + 1;
            permanent_failure := is_permanent e |}.
Proof.
  unfold record_failure, attempts_of. simpl.
  destruct (failed_videos (progress_data self) !! id video) as [f|];
    rewrite lookup_alter_eq, lookup_insert_eq; reflexivity.
Qed.

Lemma record_failure_lookup_ne self video e other :
  other <> id video ->
  failed_videos (progress_data (record_failure self video e)) !! other
  = failed_videos (progress_data self) !! other.
Proof.
  intros Hne. unfold record_failure. simpl.
  rewrite lookup_alter_ne by done.
  destruct (failed_videos (progress_data self) !! id video);
    by rewrite lookup_insert_ne.
Qed.

(** In the stealth downloader the attempts of a record never pass 3 and
    one processing of a video adds at most one. *)
Lemma stealth_attempts_bounded self url limit days w self' fetched c :
  map_Forall (fun _ f => attempts f <= 3) (failed_videos (progress_data self)) ->
  download_channel self url limit days w = (self', fetched, c) ->
  map_Forall (fun _ f => attempts f <= 3) (failed_videos (progress_data self')).
Proof.
  intros Hinit Hrun.
  eapply (download_channel_invariant
            (fun s => map_Forall (fun _ f => attempts f <= 3)
                        (failed_videos (progress_data s)))
            (fun _ => True)) in Hrun as [HP _]; [done| | |done].
  - intros s video env s' calls c' HP _ Hpath.
    destruct Hpath; (split; [|repeat constructor]); try done.
    intros other f. destruct (decide (other = id video)) as [->|Hne].
    + rewrite record_failure_lookup. intros [= <-]. simpl. lia.
    + rewrite record_failure_lookup_ne by done. apply HP.
  - intros s pd HP _ Hfailed _. simpl. by rewrite Hfailed.
Qed.

End AttemptFacts.

(** ** Downloaded videos *)

Section DownloadedFacts.

Lemma stealth_skips_downloaded (self : Stealth.downloader) (video : Stealth.video)
    (env : Stealth.video_env) :
  is_Some (Stealth.downloaded_videos (Stealth.progress_data self) !! Stealth.id video) ->
  Stealth._download_single_video self video env = (self, [], Returns true).
Proof.
  intros Hd. unfold Stealth._download_single_video.
  by rewrite bool_decide_eq_true_2.
Qed.

Lemma stealth_keeps_downloaded (self : Stealth.downloader) url limit days w
    self' fetched c (video_id : string) (e : Stealth.downloaded_entry) :
  Stealth.downloaded_videos (Stealth.progress_data self) !! video_id = Some e ->
  Stealth.download_channel self url limit days w = (self', fetched, c) ->
  Stealth.downloaded_videos (Stealth.progress_data self') !! video_id = Some e
  /\ Forall (fun call => Stealth.fc_id call <> video_id) fetched.
Proof.
  intros Hd Hrun.
  eapply (download_channel_invariant
            (fun s => Stealth.downloaded_videos (Stealth.progress_data s) !! video_id
                      = Some e)
            (fun call => Stealth.fc_id call <> video_id)) in Hrun; [done| | |done].
  - intros s video env s' calls c' HP _ Hpath.
    assert (Stealth.downloaded_videos (Stealth.progress_data s) !! Stealth.id video = None
            -> Stealth.id video <> video_id) as Hne by (intros Hn Heq; rewrite Heq in Hn; congruence).
    destruct Hpath; (split; [|repeat constructor; simpl; auto]); try done.
    unfold mark_downloaded. simpl. rewrite lookup_insert_ne; auto.
  - intros s pd HP Hsame _ _. simpl. by rewrite Hsame.
Qed.

Lemma advanced_skips_downloaded (self : Advanced.downloader) (video : Advanced.video)
    (fetch : nat -> fetch_result) :
  is_Some (Advanced.downloaded_videos (Advanced.progress_data self) !! Advanced.id video) ->
  Advanced._download_video_with_fallback self video fetch
  = (Advanced.add_skipped self, [], Returns true).
Proof.
  intros Hd. unfold Advanced._download_video_with_fallback.
  by rewrite bool_decide_eq_true_2.
Qed.

Lemma advanced_keeps_downloaded (self : Advanced.downloader) url limit reverse
    date_after w code self' fetched (video_id : string) (e : Advanced.downloaded_entry) :
  Advanced.downloaded_videos (Advanced.progress_data self) !! video_id = Some e ->
  Advanced.main self url limit reverse date_after w = (code, self', fetched) ->
  Advanced.downloaded_videos (Advanced.progress_data self') !! video_id = Some e
  /\ Forall (fun call => call.1 <> video_id) fetched.
Proof.
  intros Hd Hrun.
  eapply (advanced_main_invariant
            (fun s => Advanced.downloaded_videos (Advanced.progress_data s) !! video_id
                      = Some e)
            (fun call => call.1 <> video_id)) in Hrun; [done|..|done].
  - done.
  - intros s pd HP Hsame _. simpl. by rewrite Hsame.
  - done.
  - intros s video q HP Hnone. unfold Advanced.record_success. simpl.
    assert (Advanced.id video <> video_id) by (intros Heq; rewrite Heq in Hnone; congruence).
    case_bool_decide; simpl; by rewrite lookup_insert_ne.
  - intros s video q HP Hnone. simpl. intros Heq. rewrite Heq in Hnone. congruence.
Qed.

(** C4.  For a video that has a record in [downloaded_videos], the check at
    the head of the processing of a video returns before [ydl.download] is
    reached, in both downloaders; no run calls [ydl.download] for that
    video, and the record is still there, unchanged, after the run, so the
    same holds for every later run. *)
Theorem downloaded_video_is_never_fetched_again
    (self : Stealth.downloader) (url : string) (limit days : option Z)
    (w : Stealth.world)
    (adv : Advanced.downloader) (adv_url : string) (adv_limit : option Z)
    (reverse : bool) (date_after : option string) (adv_w : Advanced.world)
    (video_id : string)
    (Hstealth : is_Some (Stealth.downloaded_videos (Stealth.progress_data self)
                           !! video_id))
    (Hadvanced : is_Some (Advanced.downloaded_videos (Advanced.progress_data adv)
                            !! video_id)) :
  (forall name env,
      Stealth._download_single_video self
        {| Stealth.id := video_id; Stealth.title := name |} env
      = (self, [], Returns true))
  /\ (let '(self', fetched, _) := Stealth.download_channel self url limit days w in
      (video_id ∉ map Stealth.fc_id fetched)
      /\ Stealth.downloaded_videos (Stealth.progress_data self') !! video_id
         = Stealth.downloaded_videos (Stealth.progress_data self) !! video_id)
  /\ (forall video fetch,
      Advanced.id video = video_id ->
      Advanced._download_video_with_fallback adv video fetch
      = (Advanced.add_skipped adv, [], Returns true))
  /\ (let '(_, adv', fetched) :=
        Advanced.main adv adv_url adv_limit reverse date_after adv_w in
      (video_id ∉ map fst fetched)
      /\ Advanced.downloaded_videos (Advanced.progress_data adv') !! video_id
         = Advanced.downloaded_videos (Advanced.progress_data adv) !! video_id).
Proof.
  destruct Hstealth as [e He]. destruct Hadvanced as [e' He'].
  split; [intros name env; apply stealth_skips_downloaded; simpl; eauto|].
  split.
  { destruct (Stealth.download_channel self url limit days w)
      as [[self' fetched] c] eqn:Hrun.
    destruct (stealth_keeps_downloaded _ _ _ _ _ _ _ _ _ _ He Hrun) as [Hkept Hcalls].
    split; [|congruence].
    rewrite list_elem_of_fmap. intros (call & -> & Hin).
    rewrite Forall_forall in Hcalls. by apply (Hcalls call). }
  split; [intros video fetch <-; apply advanced_skips_downloaded; eauto|].
  destruct (Advanced.main adv adv_url adv_limit reverse date_after adv_w)
    as [[code adv'] fetched] eqn:Hrun.
  destruct (advanced_keeps_downloaded _ _ _ _ _ _ _ _ _ _ _ He' Hrun) as [Hkept Hcalls].
  split; [|congruence].
  rewrite list_elem_of_fmap. intros (call & -> & Hin).
  rewrite Forall_forall in Hcalls. by apply (Hcalls call).
Qed.

End DownloadedFacts.

(** ** Records *)

Section RecordFacts.


Lemma advanced_record_failure_dom self video e permanent :
  dom (Advanced.failed_videos
         (Advanced.progress_data (Advanced._record_failure self video e permanent)))
  = {[Advanced.id video]} ∪ dom (Advanced.failed_videos (Advanced.progress_data self)).
Proof.
  unfold Advanced._record_failure. simpl. rewrite dom_alter_L.
  destruct (Advanced.failed_videos (Advanced.progress_data self) !! Advanced.id video)
    as [f|] eqn:E; [|by rewrite dom_insert_L].
  apply elem_of_dom_2 in E. set_solver.
Qed.



End RecordFacts.

Section RecordClaims.


End RecordClaims.

(** ** Permanent failures *)

Section PermanentFacts.

Import Stealth.



End PermanentFacts.


(** ** The empty catalog *)

Section EmptyCatalogFacts.

Import Stealth.

(** C9, as the code has it.  When [_get_video_list] returns no video,
    because the catalog raised, had no entries or had no valid one, the run
    ends at once: [ydl.download] is not called, the progress data is left
    as it was, without a session record, and the process exits with code
    1, the code of a run that had a failure. *)
Theorem empty_catalog_exits_with_code_1
    (a : args) (pd : progress) (today sid : string) (w : world) (url : string)
    (Hstats : a_stats a = false)
    (Hurl : a_url a = Some url)
    (Hnonempty : String.eqb url "" = false)
    (Hempty : _get_video_list
                (__init__ (default 0 (a_min_wait a)) (default 0 (a_max_wait a))
                          (a_stealth a) pd today sid)
                (w_reply w) (a_days a) (w_now w) (w_shuffle w) = []) :
  let self := __init__ (default 0 (a_min_wait a)) (default 0 (a_max_wait a))
                       (a_stealth a) pd today sid in
  main a pd today sid w = (1, self, [])
  /\ download_channel self url (a_limit a) (a_days a) w = (self, [], Returns false)
  /\ progress_data self = pd.
Proof.
  intros self.
  assert (Hrun : download_channel self url (a_limit a) (a_days a) w
                 = (self, [], Returns false)).
  { unfold download_channel.
    destruct (negb (_check_time_restrictions self (w_hour w))
              && String.eqb (stealth_mode self) "paranoid"); [done|].
    destruct (negb (_check_daily_limit self)); [done|].
    fold self in Hempty. by rewrite Hempty. }
  split; [|done].
  unfold main. fold self. by rewrite Hstats, Hurl, Hnonempty, Hrun.
Qed.

End EmptyCatalogFacts.

(** C9 fails as stated: with a catalog that has no entries the process
    exits with code 1, not 0. *)
Lemma empty_catalog_exit_code_is_not_0 :
  fst (fst (Stealth.main low_args Stealth.empty_progress "2025-01-01" "session1"
              (world_of (Stealth.CatalogInfo (Some [])) (fun _ => Fetched)
                        (fun _ => false))))
  = 1
  /\ fst (fst (Stealth.main low_args Stealth.empty_progress "2025-01-01" "session1"
                 (world_of (Stealth.CatalogInfo (Some [])) (fun _ => Fetched)
                           (fun _ => false))))
     <> 0.
Proof. vm_compute. split; [done|discriminate]. Qed.

(** ** The theorems at concrete runs *)

Lemma downloaded_video_is_never_fetched_again_witness :
  is_Some (Stealth.downloaded_videos (Stealth.progress_data resumed) !! "aaaaaaaaaaa")
  /\ is_Some (Advanced.downloaded_videos (Advanced.progress_data advanced_resumed)
                !! "aaaaaaaaaaa")
  /\ "aaaaaaaaaaa"
     ∉ map Stealth.fc_id
         (snd (fst (Stealth.download_channel resumed "https://www.youtube.com/@channel"
                      None None
                      (world_of catalog_two (fun _ => Fetched) (fun _ => false))))).
Proof.
  assert (H1 : is_Some (Stealth.downloaded_videos (Stealth.progress_data resumed)
                          !! "aaaaaaaaaaa"))
    by (vm_compute; eexists; reflexivity).
  assert (H2 : is_Some (Advanced.downloaded_videos (Advanced.progress_data advanced_resumed)
                          !! "aaaaaaaaaaa"))
    by (vm_compute; eexists; reflexivity).
  split; [exact H1|]. split; [exact H2|].
  pose proof (downloaded_video_is_never_fetched_again
                resumed "https://www.youtube.com/@channel" None None
                (world_of catalog_two (fun _ => Fetched) (fun _ => false))
                advanced_resumed "https://www.youtube.com/@channel" None false None
                (advanced_world (fun _ _ => Fetched) (fun _ => false))
                "aaaaaaaaaaa" H1 H2) as (_ & H & _).
  destruct (Stealth.download_channel resumed "https://www.youtube.com/@channel"
              None None (world_of catalog_two (fun _ => Fetched) (fun _ => false)))
    as [[self' fetched] c].
  exact (proj1 H).
Defined.


Lemma empty_catalog_exits_with_code_1_witness :
  Stealth.main low_args Stealth.empty_progress "2025-01-01" "session1"
    (world_of Stealth.CatalogRaises (fun _ => Fetched) (fun _ => false))
  = (1, Stealth.__init__ 0 0 "low" Stealth.empty_progress "2025-01-01" "session1", []).
Proof.
  apply (empty_catalog_exits_with_code_1 low_args Stealth.empty_progress
           "2025-01-01" "session1"
           (world_of Stealth.CatalogRaises (fun _ => Fetched) (fun _ => false))
           "https://www.youtube.com/@channel");
    reflexivity.
Defined.

(** * Further properties of the code *)

(** ** Stealth parameters and time windows *)

Section ParamFacts.

Import Stealth.

Lemma stealth_params_row (mode : string) (min_wait max_wait : Z) :
  let row := default mode_high (modes mode) in
  let params := _get_stealth_params mode min_wait max_wait in
  daily_limit params = daily_limit row
  /\ 5 <= daily_limit params <= 50
  /\ night_hours params = night_hours row
  /\ work_hours params = work_hours row
  /\ variance params = variance row
  /\ p_min_wait params = (if min_wait =? 0 then p_min_wait row else min_wait)
  /\ p_max_wait params = (if max_wait =? 0 then p_max_wait row else max_wait).
Proof.
  intros row params. subst params. unfold _get_stealth_params. fold row.
  assert (Hrow : 5 <= daily_limit row <= 50).
  { subst row. unfold modes.
    repeat (match goal with |- context [String.eqb mode ?m] =>
              destruct (String.eqb mode m) end; simpl; try lia). }
  destruct (min_wait =? 0), (max_wait =? 0); simpl; split_and!; done || lia.
Qed.

(** The command line can move the waits but never the daily limit, the
    variance or the time windows: they are those of the mode's row (of the
    row [high] for an unknown mode), and the limit lies between 5 and 50.
    A wait override of 0 leaves the mode's wait in place. *)
Theorem stealth_params_overrides (mode : string) (min_wait max_wait : Z) :
  let row := default mode_high (modes mode) in
  let params := _get_stealth_params mode min_wait max_wait in
  daily_limit params = daily_limit row
  /\ 5 <= daily_limit params <= 50
  /\ night_hours params = night_hours row
  /\ work_hours params = work_hours row
  /\ variance params = variance row
  /\ p_min_wait params = (if min_wait =? 0 then p_min_wait row else min_wait)
  /\ p_max_wait params = (if max_wait =? 0 then p_max_wait row else max_wait).
Proof. apply stealth_params_row. Qed.

(** The hours at which [_check_time_restrictions] lets a run start, for
    the four modes and whatever the wait overrides: every hour in [low];
    from 7 up to 23 in [medium], whose night spans midnight; the work
    hours in [high] (9 up to 17) and [paranoid] (10 up to 16), which lie
    inside the day. *)
Theorem time_windows_of_the_modes (min_wait max_wait : Z) (pd : progress)
    (today sid : string) (hour : Z) :
  let downloader mode := __init__ min_wait max_wait mode pd today sid in
  _check_time_restrictions (downloader "low") hour = true
  /\ _check_time_restrictions (downloader "medium") hour
     = bool_decide (7 <= hour < 23)
  /\ _check_time_restrictions (downloader "high") hour
     = bool_decide (9 <= hour < 17)
  /\ _check_time_restrictions (downloader "paranoid") hour
     = bool_decide (10 <= hour < 16).
Proof.
  intros downloader.
  assert (Hhours : forall mode,
    night_hours (stealth_params (downloader mode))
    = night_hours (default mode_high (modes mode))
    /\ work_hours (stealth_params (downloader mode))
       = work_hours (default mode_high (modes mode))).
  { intros mode.
    pose proof (stealth_params_row mode min_wait max_wait) as H.
    simpl in H. tauto. }
  unfold _check_time_restrictions.
  split_and!;
    match goal with |- context [downloader ?m] =>
      destruct (Hhours m) as [-> ->] end;
    simpl; repeat case_bool_decide;
    repeat match goal with
           | |- context [?a <=? ?b] => destruct (Z.leb_spec a b)
           | |- context [?a <? ?b] => destruct (Z.ltb_spec a b)
           end; simpl; try done; lia.
Qed.

End ParamFacts.

(** ** What a run of the stealth downloader fetches and records *)

Section StealthSummaryFacts.

Import Stealth.

Lemma slice_to_prefix {A} (n : Z) (l : list A) : Py.slice_to n l `prefix_of` l.
Proof. unfold Py.slice_to. destruct (0 <=? n); apply prefix_take. Qed.

Lemma quota_videos_prefix self limit videos :
  quota_videos self limit videos `prefix_of` videos.
Proof.
  unfold quota_videos.
  set (limited := match limit with
                  | Some l => if l =? 0 then videos else Py.slice_to l videos
                  | None => videos
                  end).
  assert (Hlimited : limited `prefix_of` videos).
  { subst limited. destruct limit as [l|]; [destruct (l =? 0)|]; try done.
    apply slice_to_prefix. }
  destruct (_ <? _); [|done].
  etrans; [apply slice_to_prefix|done].
Qed.

Lemma download_channel_eq self url limit days w :
  download_channel self url limit days w
  = if negb (_check_time_restrictions self (w_hour w))
       && String.eqb (stealth_mode self) "paranoid"
    then (self, [], Returns false)
    else if negb (_check_daily_limit self) then (self, [], Returns false)
    else
      let videos := _get_video_list self (w_reply w) days (w_now w) (w_shuffle w) in
      if bool_decide (videos = []) then (self, [], Returns false)
      else
        let '(st, c) := run_loop self url limit videos w in
        match c with
        | Interrupt => (ls_self st, ls_fetched st, KeyboardInterrupt)
        | Normal => (log_session st url, ls_fetched st, Returns (ls_failed st =? 0))
        end.
Proof. reflexivity. Qed.

(** The calls of the loop are made for videos of the list, in the order of
    the list, and its two counters grow by no more than one for each
    video. *)
Lemma download_loop_summary w total videos : forall i st st' c,
  download_loop w total i videos st = (st', c) ->
  exists extra,
    ls_fetched st' = ls_fetched st ++ extra
    /\ map fc_id extra `sublist_of` map id videos
    /\ ls_downloaded st <= ls_downloaded st'
    /\ ls_failed st <= ls_failed st'
    /\ ls_downloaded st' + ls_failed st'
       <= ls_downloaded st + ls_failed st + Z.of_nat (length videos).
Proof.
  induction videos as [|video rest IH]; intros i st st' c; simpl.
  { intros [= <- <-]. exists []. rewrite app_nil_r. split_and!; try done; lia. }
  assert (Hstop : exists extra,
    ls_fetched st = ls_fetched st ++ extra
    /\ map fc_id extra `sublist_of` id video :: map id rest
    /\ ls_downloaded st <= ls_downloaded st /\ ls_failed st <= ls_failed st
    /\ ls_downloaded st + ls_failed st
       <= ls_downloaded st + ls_failed st + Z.of_nat (S (length rest))).
  { exists []. rewrite app_nil_r. split_and!; try done; try lia. apply sublist_nil_l. }
  destruct (negb (_check_daily_limit (ls_self st))); [intros [= <- <-]; done|].
  destruct (w_stop w i); [intros [= <- <-]; done|].
  destruct (_download_single_video (ls_self st) video (w_video w i))
    as [[self1 calls] c1] eqn:Hsingle.
  apply download_single_video_path in Hsingle.
  assert (Hcalls : map fc_id calls `sublist_of` [id video]).
  { destruct Hsingle; simpl; try done; by apply sublist_cons. }
  assert (Hhere : forall rest', map fc_id rest' `sublist_of` map id rest ->
            map fc_id (calls ++ rest') `sublist_of` id video :: map id rest).
  { intros rest' Hrest. rewrite map_app.
    change (id video :: map id rest) with ([id video] ++ map id rest).
    by apply sublist_app. }
  destruct c1 as [success|].
  2:{ intros [= <- <-]. exists calls. simpl. split_and!; try done; try lia.
      rewrite <- (app_nil_r calls). apply Hhere, sublist_nil_l. }
  set (st1 := {| ls_self := self1;
                 ls_downloaded := if success then ls_downloaded st + 1
                                  else ls_downloaded st;
                 ls_failed := if success then ls_failed st else ls_failed st + 1;
                 ls_fetched := ls_fetched st ++ calls |}).
  assert (Hinterrupt : exists extra,
    ls_fetched st1 = ls_fetched st ++ extra
    /\ map fc_id extra `sublist_of` id video :: map id rest
    /\ ls_downloaded st <= ls_downloaded st1 /\ ls_failed st <= ls_failed st1
    /\ ls_downloaded st1 + ls_failed st1
       <= ls_downloaded st + ls_failed st + Z.of_nat (S (length rest))).
  { exists calls. simpl. split; [done|]. split.
    - rewrite <- (app_nil_r calls). apply Hhere, sublist_nil_l.
    - destruct success; lia. }
  assert (Hnext : download_loop w total (S i) rest st1 = (st', c) ->
    exists extra,
      ls_fetched st' = ls_fetched st ++ extra
      /\ map fc_id extra `sublist_of` id video :: map id rest
      /\ ls_downloaded st <= ls_downloaded st' /\ ls_failed st <= ls_failed st'
      /\ ls_downloaded st' + ls_failed st'
         <= ls_downloaded st + ls_failed st + Z.of_nat (S (length rest))).
  { intros Hloop. apply IH in Hloop as (extra & Hf & Hsub & Hd & Hfl & Hsum).
    exists (calls ++ extra). simpl in *. rewrite Hf, app_assoc.
    split; [done|]. split; [by apply Hhere|]. destruct success; lia. }
  repeat match goal with
         | |- context [if ?b then _ else _] =>
             match b with
             | context [w_interrupt_extra] => destruct b
             | context [w_interrupt_wait] => destruct b
             end
         end;
    try (intros [= <- <-]; exact Hinterrupt); exact Hnext.
Qed.

(** What the loop never touches: the session history and the session id. *)
Lemma download_loop_keeps_sessions w total videos i st st' c :
  download_loop w total i videos st = (st', c) ->
  sessions (progress_data (ls_self st')) = sessions (progress_data (ls_self st))
  /\ session_id (ls_self st') = session_id (ls_self st).
Proof.
  intros Hloop.
  eapply (download_loop_invariant
            (fun s => sessions (progress_data s) = sessions (progress_data (ls_self st))
                      /\ session_id s = session_id (ls_self st))
            (fun _ => True)) in Hloop as [HP _];
    [done| |done|by apply Forall_true].
  intros s video env s' calls c' HP _ Hpath.
  destruct Hpath; (split; [|repeat constructor]); done.
Qed.

End StealthSummaryFacts.

Section StealthRunClaims.

Import Stealth.

Lemma sublist_Forall_of {A} (P : A -> Prop) (l1 l2 : list A) :
  l1 `sublist_of` l2 -> Forall P l2 -> Forall P l1.
Proof.
  induction 1 as [|x l1 l2 _ IH|x l1 l2 _ IH]; intros HP; [done|..];
    apply Forall_cons in HP as [Hx HP]; [constructor|]; auto.
Qed.

Lemma prefix_map_sublist {A B} (f : A -> B) (l1 l2 : list A) :
  l1 `prefix_of` l2 -> map f l1 `sublist_of` map f l2.
Proof. intros [k ->]. rewrite map_app. by apply sublist_inserts_r. Qed.

Lemma video_of_entry_valid cutoff e v :
  video_of_entry cutoff e = Some v -> valid_id (id v).
Proof.
  unfold video_of_entry, valid_id.
  destruct e as [e|]; [|done]. destruct (en_id e) as [video_id|]; [|done].
  destruct (Py.startswith "UC" video_id) eqn:Huc; [done|].
  destruct (String.length video_id =? 11)%nat eqn:Hlen; [|done].
  apply Nat.eqb_eq in Hlen. simpl.
  destruct cutoff as [c|], (en_timestamp e) as [t|];
    try destruct (t <? c); intros [= <-]; done.
Qed.

Lemma omap_length_le {A B} (f : A -> option B) (l : list A) :
  (length (omap f l) <= length l)%nat.
Proof. induction l as [|x l IH]; csimpl; [lia|]. destruct (f x); csimpl; lia. Qed.

Lemma listed_videos_valid reply days now :
  Forall (fun v => valid_id (id v)) (listed_videos reply days now).
Proof.
  unfold listed_videos. destruct reply as [|[entries|]]; try by constructor.
  apply Forall_forall. intros v Hv.
  apply list_elem_of_omap in Hv as (e & _ & He). by eapply video_of_entry_valid.
Qed.

Lemma get_video_list_valid self reply days now draws :
  Forall (fun v => valid_id (id v)) (_get_video_list self reply days now draws).
Proof.
  unfold _get_video_list. case_bool_decide; [|apply listed_videos_valid].
  rewrite shuffle_Permutation. apply listed_videos_valid.
Qed.

(** Whatever the catalog replies, every video [_get_video_list] returns
    has an id of eleven characters that does not start with [UC], and the
    list has no more videos than the catalog had entries. *)
Theorem video_list_has_only_valid_ids (self : downloader)
    (entries : list (option entry)) (days : option Z) (now : Z) (draws : list nat) :
  let videos := _get_video_list self (CatalogInfo (Some entries)) days now draws in
  Forall (fun v => valid_id (id v)) videos
  /\ (length videos <= length entries)%nat
  /\ _get_video_list self CatalogRaises days now draws = []
  /\ _get_video_list self (CatalogInfo None) days now draws = [].
Proof.
  intros videos. split; [apply get_video_list_valid|].
  split.
  - subst videos. unfold _get_video_list. simpl.
    case_bool_decide; [rewrite shuffle_Permutation|]; apply omap_length_le.
  - unfold _get_video_list. simpl. by case_bool_decide.
Qed.

Lemma download_channel_fetch_order self url limit days w self' fetched c :
  download_channel self url limit days w = (self', fetched, c) ->
  map fc_id fetched
  `sublist_of` map id (_get_video_list self (w_reply w) days (w_now w) (w_shuffle w)).
Proof.
  rewrite download_channel_eq.
  destruct (_ && _); [intros [= <- <- <-]; apply sublist_nil_l|].
  destruct (negb _); [intros [= <- <- <-]; apply sublist_nil_l|].
  cbv zeta. case_bool_decide; [intros [= <- <- <-]; apply sublist_nil_l|].
  destruct (run_loop _ _ _ _ _) as [st c1] eqn:Hloop. unfold run_loop in Hloop.
  apply download_loop_summary in Hloop as (extra & Hf & Hsub & _).
  simpl in Hf. subst extra.
  assert (map fc_id (ls_fetched st)
          `sublist_of` map id (_get_video_list self (w_reply w) days (w_now w)
                                 (w_shuffle w))).
  { etrans; [done|]. apply prefix_map_sublist, quota_videos_prefix. }
  destruct c1; intros [= <- <- <-]; done.
Qed.

(** In every run the videos [ydl.download] is called for are videos of
    the list [_get_video_list] returned, taken in the order of that list:
    all of them have well-formed ids, and no video is downloaded twice in
    a run unless the list names it twice. *)
Theorem stealth_fetches_follow_the_list (self : downloader) (url : string)
    (limit days : option Z) (w : world) :
  let '(_, fetched, _) := download_channel self url limit days w in
  let listed := _get_video_list self (w_reply w) days (w_now w) (w_shuffle w) in
  map fc_id fetched `sublist_of` map id listed
  /\ Forall valid_id (map fc_id fetched)
  /\ (NoDup (map id listed) -> NoDup (map fc_id fetched)).
Proof.
  destruct (download_channel self url limit days w) as [[self' fetched] c] eqn:Hrun.
  apply download_channel_fetch_order in Hrun. cbv zeta.
  split; [done|]. split.
  - eapply sublist_Forall_of; [done|].
    rewrite Forall_fmap. apply get_video_list_valid.
  - intros Hnodup. by eapply sublist_NoDup.
Qed.

Lemma download_channel_sessions (self : downloader) (url : string)
    (limit days : option Z) (w : world) self' fetched c :
  download_channel self url limit days w = (self', fetched, c) ->
  let before := sessions (progress_data self) in
  let after := sessions (progress_data self') in
  let listed := _get_video_list self (w_reply w) days (w_now w) (w_shuffle w) in
  match c with
  | KeyboardInterrupt => after = before
  | Returns success =>
      (after = before /\ success = false /\ fetched = [] /\ self' = self)
      \/ exists s,
           after = before ++ [s]
           /\ s_id s = session_id self /\ s_channel s = url
           /\ 0 <= s_downloaded s /\ 0 <= s_failed s
           /\ s_downloaded s + s_failed s <= Z.of_nat (length listed)
           /\ success = (s_failed s =? 0)
  end.
Proof.
  rewrite download_channel_eq.
  destruct (_ && _); [intros [= <- <- <-]; left; done|].
  destruct (negb _); [intros [= <- <- <-]; left; done|].
  cbv zeta. case_bool_decide; [intros [= <- <- <-]; left; done|].
  destruct (run_loop _ _ _ _ _) as [st c1] eqn:Hloop. unfold run_loop in Hloop.
  pose proof (download_loop_keeps_sessions _ _ _ _ _ _ _ Hloop) as [Hs Hid].
  apply download_loop_summary in Hloop as (extra & _ & _ & Hd & Hf & Hsum).
  simpl in *.
  pose proof (prefix_length _ _
    (quota_videos_prefix self limit
       (_get_video_list self (w_reply w) days (w_now w) (w_shuffle w)))) as Hlen.
  destruct c1; intros [= <- <- <-]; simpl; [|done].
  right. eexists. split; [by rewrite Hs|]. simpl. split_and!; try done; lia.
Qed.

(** A run appends at most one record to the session history and never
    removes one.  A run that an interrupt ends appends none.  A run that
    returns either returned early, without a call and with the object
    state untouched, or appended the record of this session, whose two
    counters are not negative, add up to no more than the videos listed,
    and whose failure count decides the value returned. *)
Theorem stealth_run_appends_at_most_one_session (self : downloader) (url : string)
    (limit days : option Z) (w : world) :
  let '(self', fetched, c) := download_channel self url limit days w in
  let before := sessions (progress_data self) in
  let after := sessions (progress_data self') in
  let listed := _get_video_list self (w_reply w) days (w_now w) (w_shuffle w) in
  match c with
  | KeyboardInterrupt => after = before
  | Returns success =>
      (after = before /\ success = false /\ fetched = [] /\ self' = self)
      \/ exists s,
           after = before ++ [s]
           /\ s_id s = session_id self /\ s_channel s = url
           /\ 0 <= s_downloaded s /\ 0 <= s_failed s
           /\ s_downloaded s + s_failed s <= Z.of_nat (length listed)
           /\ success = (s_failed s =? 0)
  end.
Proof.
  destruct (download_channel self url limit days w) as [[self' fetched] c] eqn:Hrun.
  by apply download_channel_sessions in Hrun.
Qed.

(** What the exit code of the stealth downloader tells.  It is 0, 1, 2 or
    130.  With [--stats], or without a URL (2), nothing is downloaded and
    the progress data stays as loaded.  Code 130 means that the session
    history is as it was loaded: an interrupted session leaves no record.
    Code 0 for a run means that the record of the session was appended
    with no failure counted. *)
Theorem stealth_exit_codes (a : args) (pd : progress) (today sid : string)
    (w : world) :
  let '(code, self', fetched) := main a pd today sid w in
  let after := sessions (progress_data self') in
  (code = 0 \/ code = 1 \/ code = 2 \/ code = 130)
  /\ (a_stats a = true -> code = 0 /\ fetched = [] /\ progress_data self' = pd)
  /\ (code = 2 -> fetched = [] /\ progress_data self' = pd)
  /\ (code = 130 -> after = sessions pd)
  /\ (code = 0 -> a_stats a = false ->
       exists s, after = sessions pd ++ [s] /\ s_id s = sid /\ s_failed s = 0).
Proof.
  unfold main.
  set (self := __init__ _ _ _ pd today sid).
  destruct (a_stats a); [simpl; split_and!; try done; auto|].
  destruct (a_url a) as [url|]; [|simpl; split_and!; try done; auto].
  destruct (String.eqb url ""); [simpl; split_and!; try done; auto|].
  destruct (download_channel self url (a_limit a) (a_days a) w)
    as [[self' fetched] c] eqn:Hrun.
  apply download_channel_sessions in Hrun. cbv zeta in Hrun.
  destruct c as [success|].
  - destruct Hrun as [(Hs & -> & -> & ->)|(s & Hs & Hid & _ & _ & _ & _ & ->)].
    + simpl. split_and!; try done; auto.
    + destruct (s_failed s =? 0) eqn:Hfailed; simpl;
        split_and!; try done; auto.
      intros _ _. exists s. split_and!; [done|done|by apply Z.eqb_eq].
  - simpl. split_and!; try done; auto.
Qed.

End StealthRunClaims.

Section StealthCounterFacts.

Import Stealth.

Lemma download_loop_with_hour w hour total videos : forall i st,
  download_loop (with_hour w hour) total i videos st = download_loop w total i videos st.
Proof.
  induction videos as [|video rest IH]; intros i st; simpl; [done|].
  destruct (negb (_check_daily_limit (ls_self st))); [done|].
  destruct (w_stop w i); [done|].
  destruct (_download_single_video (ls_self st) video (w_video w i))
    as [[self1 calls] [success|]]; [|done].
  by rewrite IH.
Qed.

(** Outside the mode [paranoid] the hour of the day decides nothing: a
    run does at any hour what it does at any other, the time check being a
    printed warning only. *)
Theorem time_check_is_advisory_outside_paranoid (self : downloader) (url : string)
    (limit days : option Z) (w : world) (hour : Z)
    (Hmode : String.eqb (stealth_mode self) "paranoid" = false) :
  download_channel self url limit days (with_hour w hour)
  = download_channel self url limit days w.
Proof.
  unfold download_channel. rewrite Hmode, !andb_false_r.
  destruct (negb (_check_daily_limit self)); [done|].
  simpl. case_bool_decide; [done|].
  by rewrite download_loop_with_hour.
Qed.

(** The daily counter counts the new download records, and nothing else:
    over a run [downloads_today] grows by exactly the number of entries
    the run adds to [downloaded_videos]; failures and videos skipped as
    already downloaded leave it alone. *)
Theorem daily_counter_counts_new_records (self : downloader) (url : string)
    (limit days : option Z) (w : world) :
  let '(self', _, _) := download_channel self url limit days w in
  downloads_today self' - downloads_today self
  = Z.of_nat (size (downloaded_videos (progress_data self')))
    - Z.of_nat (size (downloaded_videos (progress_data self)))
  /\ downloads_today self <= downloads_today self'.
Proof.
  destruct (download_channel self url limit days w) as [[self' fetched] c] eqn:Hrun.
  eapply (download_channel_invariant
            (fun s => downloads_today s - downloads_today self
                      = Z.of_nat (size (downloaded_videos (progress_data s)))
                        - Z.of_nat (size (downloaded_videos (progress_data self)))
                      /\ downloads_today self <= downloads_today s)
            (fun _ => True)) in Hrun as [HP _]; [done| | |split; lia].
  - intros s video env s' calls c' [HP1 HP2] _ Hpath.
    destruct Hpath; (split; [|repeat constructor]); try done.
    unfold mark_downloaded. simpl.
    rewrite map_size_insert_None by done. lia.
  - intros s pd [HP1 HP2] Hsame _ _. simpl. by rewrite Hsame.
Qed.

Lemma download_loop_counter_sync w today total videos :
  (forall i, ve_today (w_video w i) = today) ->
  forall i st st' c,
  _get_downloads_today (progress_data (ls_self st)) today = downloads_today (ls_self st) ->
  download_loop w total i videos st = (st', c) ->
  _get_downloads_today (progress_data (ls_self st')) today = downloads_today (ls_self st').
Proof.
  intros Hdate.
  induction videos as [|video rest IH]; intros i st st' c HP; simpl.
  { by intros [= <- <-]. }
  destruct (negb (_check_daily_limit (ls_self st))); [by intros [= <- <-]|].
  destruct (w_stop w i); [by intros [= <- <-]|].
  destruct (_download_single_video (ls_self st) video (w_video w i))
    as [[self1 calls] c1] eqn:Hsingle.
  apply download_single_video_path in Hsingle.
  assert (HP1 : _get_downloads_today (progress_data self1) today = downloads_today self1).
  { destruct Hsingle; try done.
    unfold mark_downloaded, _get_downloads_today. simpl.
    by rewrite Hdate, lookup_insert_eq. }
  destruct c1 as [success|]; [|by intros [= <- <-]].
  repeat match goal with
         | |- context [if ?b then _ else _] =>
             match b with
             | context [w_interrupt_extra] => destruct b
             | context [w_interrupt_wait] => destruct b
             end
         end;
    try (by intros [= <- <-]); by apply IH.
Qed.

(** While the date does not change, the counter the progress data holds
    for the day is [downloads_today] at every end of a run, an interrupt
    included: the next run of that day, however it is started, takes the
    count up where this one left it. *)
Theorem daily_counter_is_resumed (a : args) (pd : progress) (today sid : string)
    (w : world)
    (Hdate : forall i, ve_today (w_video w i) = today) :
  let '(_, self', _) := main a pd today sid w in
  forall min_wait max_wait mode sid',
    downloads_today (__init__ min_wait max_wait mode (progress_data self') today sid')
    = downloads_today self'.
Proof.
  destruct (main a pd today sid w) as [[code self'] fetched] eqn:Hmain.
  intros min_wait max_wait mode sid'. simpl.
  revert Hmain. unfold main.
  set (self := __init__ _ _ _ pd today sid).
  assert (Hinit : _get_downloads_today (progress_data self) today = downloads_today self)
    by done.
  destruct (a_stats a); [by intros [= <- <- <-]|].
  destruct (a_url a) as [url|]; [|by intros [= <- <- <-]].
  destruct (String.eqb url ""); [by intros [= <- <- <-]|].
  rewrite download_channel_eq.
  destruct (_ && _); [by intros [= <- <- <-]|].
  destruct (negb _); [by intros [= <- <- <-]|].
  cbv zeta. case_bool_decide; [by intros [= <- <- <-]|].
  destruct (run_loop _ _ _ _ _) as [st c1] eqn:Hloop. unfold run_loop in Hloop.
  eapply download_loop_counter_sync in Hloop; [|done|done].
  destruct c1; [destruct (ls_failed st =? 0)|]; by intros [= <- <- <-].
Qed.

End StealthCounterFacts.

Section DelayBoundFacts.

Import Stealth.

Lemma product_bound (b f m v : Q) :
  (0 <= b)%Q -> (b <= m)%Q -> (0 <= f)%Q -> (f <= 1 + v)%Q ->
  (0 <= b * f)%Q /\ (b * f <= m * (1 + v))%Q.
Proof. intros. split; nra. Qed.

(** With draws in the unit interval, waits in order ([0 <= min_wait <=
    max_wait]) and a variance between 0 and 1, as in every mode, the delay
    is bounded from above: it is at most one and a half times the longest
    wait stretched by the variance, plus the longest break and half a
    minute of rounding. *)
Theorem human_like_delay_upper_bound (self : downloader) (r : delay_draws)
    (Hmin : 0 <= p_min_wait (stealth_params self))
    (Hmax : p_min_wait (stealth_params self) <= p_max_wait (stealth_params self))
    (Hvariance : (0 <= variance (stealth_params self) <= 1)%Q)
    (Hbase : (0 <= r_base r <= 1)%Q)
    (Hfactor : (0 <= r_variance r <= 1)%Q)
    (Hbreak : (0 <= r_break_length r <= 1)%Q) :
  (_human_like_delay self r
   <= inject_Z (p_max_wait (stealth_params self))
      * (1 + variance (stealth_params self)) * 1.5 + 1830)%Q.
Proof.
  unfold _human_like_delay.
  set (mn := inject_Z (p_min_wait (stealth_params self))).
  set (mx := inject_Z (p_max_wait (stealth_params self))).
  set (v := variance (stealth_params self)) in *.
  assert (Hmn : (0 <= mn)%Q).
  { subst mn. change 0%Q with (inject_Z 0). by rewrite <- Zle_Qle. }
  assert (Hmx : (mn <= mx)%Q) by (subst mn mx; by rewrite <- Zle_Qle).
  assert (Hraw : (raw_delay self r <= mx * (1 + v) * 1.5 + 1800)%Q).
  { unfold raw_delay. fold mn mx v. unfold Py.uniform.
    set (b := (mn + (mx - mn) * r_base r)%Q).
    set (f := (1 - v + (1 + v - (1 - v)) * r_variance r)%Q).
    assert (Hb : (0 <= b)%Q /\ (b <= mx)%Q) by (subst b; split; nra).
    assert (Hf : (0 <= f)%Q /\ (f <= 1 + v)%Q) by (subst f; split; nra).
    destruct (product_bound b f mx v) as [Hd0 Hd1]; try tauto.
    set (d := (b * f)%Q) in *.
    assert (Hbound : (0 <= mx * (1 + v))%Q) by nra.
    destruct (Z.ltb_spec 5 (downloads_today self));
      [|destruct (Z.ltb_spec 10 (downloads_today self)); [lia|]];
      destruct (Py.Qltb (r_break r) 0.1); nra. }
  destruct (round_delay_cases (raw_delay self r)) as [(_ & _ & _ & Hr)|(_ & _ & _ & Hr)];
    (destruct (max_cases mn (round_delay (raw_delay self r))) as [-> | ->];
     [|lra]);
    assert (0 <= mx * (1 + v))%Q by nra; nra.
Qed.

End DelayBoundFacts.

(** ** Error texts and URLs *)

Section StringFacts.

Lemma prefix_spec (p s : string) :
  String.prefix p s = true <-> exists post, s = p +:+ post.
Proof.
  revert s. induction p as [|a p IH]; intros s; simpl.
  - destruct s; split; eauto.
  - destruct s as [|b s]; simpl.
    + split; [done|]. by intros [post ?].
    + destruct (ascii_dec a b) as [->|Hne].
      * rewrite IH. split; intros [post Hpost]; exists post.
        -- by rewrite Hpost.
        -- by injection Hpost.
      * split; [done|]. intros [post Hpost]. by injection Hpost.
Qed.

Lemma contains_nil (needle : string) :
  Py.contains needle "" = String.prefix needle "".
Proof. by destruct needle. Qed.

Lemma contains_cons (needle : string) (a : ascii) (hay : string) :
  Py.contains needle (String a hay)
  = if String.prefix needle (String a hay) then true else Py.contains needle hay.
Proof. reflexivity. Qed.

Lemma contains_spec (needle hay : string) :
  Py.contains needle hay = true <-> exists pre post, hay = pre +:+ needle +:+ post.
Proof.
  induction hay as [|a hay IH].
  - rewrite contains_nil. destruct (String.prefix needle "") eqn:Hp.
    + apply prefix_spec in Hp as [post Hpost]. split; [|done].
      intros _. by exists "", post.
    + split; [done|]. intros (pre & post & Hhay).
      destruct pre; [|done]. simpl in Hhay.
      assert (String.prefix needle "" = true) by (apply prefix_spec; eauto).
      congruence.
  - rewrite contains_cons. destruct (String.prefix needle (String a hay)) eqn:Hp.
    + apply prefix_spec in Hp as [post Hpost]. split; [|done].
      intros _. by exists "", post.
    + rewrite IH. split.
      * intros (pre & post & ->). by exists (String a pre), post.
      * intros (pre & post & Hhay). destruct pre as [|b pre]; simpl in Hhay.
        { assert (String.prefix needle (String a hay) = true)
            by (apply prefix_spec; eauto). congruence. }
        injection Hhay as -> ->. eauto.
Qed.

Lemma append_cons (x : ascii) (a b : string) :
  String x a +:+ b = String x (a +:+ b).
Proof. reflexivity. Qed.

Lemma append_assoc (a b c : string) : (a +:+ b) +:+ c = a +:+ (b +:+ c).
Proof. induction a as [|x a IH]; [done|]. by rewrite !append_cons, IH. Qed.

Lemma contains_inside (needle hay pre post : string) :
  Py.contains needle hay = true ->
  Py.contains needle (pre +:+ hay +:+ post) = true.
Proof.
  rewrite !contains_spec. intros (p1 & p2 & ->).
  exists (pre +:+ p1), (p2 +:+ post). by rewrite !append_assoc.
Qed.

Lemma contains_part (a b c hay : string) :
  Py.contains (a +:+ b +:+ c) hay = true -> Py.contains b hay = true.
Proof.
  rewrite !contains_spec. intros (p1 & p2 & ->).
  exists (p1 +:+ a), (c +:+ p2). by rewrite !append_assoc.
Qed.

Lemma lower_append (a b : string) :
  Py.lower (a +:+ b) = Py.lower a +:+ Py.lower b.
Proof.
  induction a as [|x a IH]; [done|].
  rewrite append_cons. simpl. by rewrite append_cons, IH.
Qed.

Lemma lower_ascii_idempotent (c : ascii) :
  Py.lower_ascii (Py.lower_ascii c) = Py.lower_ascii c.
Proof. destruct c as [[] [] [] [] [] [] [] []]; reflexivity. Qed.

Lemma lower_idempotent (s : string) : Py.lower (Py.lower s) = Py.lower s.
Proof.
  induction s as [|c s IH]; simpl; [done|].
  by rewrite lower_ascii_idempotent, IH.
Qed.

(** The classification of an error looks for its words anywhere in the
    text and ignores the case of the letters: an error that is permanent
    stays permanent when text is put before or after it, and an error and
    its lower-case form are classified alike. *)
Theorem permanent_errors_stay_permanent_in_context (e pre post : string)
    (Hpermanent : Stealth.is_permanent e = true) :
  Stealth.is_permanent (pre +:+ e +:+ post) = true
  /\ Stealth.is_permanent (Py.lower e) = true.
Proof.
  revert Hpermanent. unfold Stealth.is_permanent.
  rewrite lower_idempotent, !lower_append, !orb_true_iff.
  intros Hp. split; [|done].
  destruct Hp as [[[Hp|Hp]|Hp]|Hp];
    eapply contains_inside in Hp; rewrite Hp; auto.
Qed.

(** Every download error the advanced downloader treats as permanent
    (its text has [video unavailable] or [private video]) is one the
    stealth downloader classifies as permanent, too. *)
Theorem advanced_permanent_is_stealth_permanent (e : string)
    (Hadvanced : Py.contains "video unavailable" (Py.lower e)
                 || Py.contains "private video" (Py.lower e) = true) :
  Stealth.is_permanent e = true
  /\ forall self video fetch n attempt quality rest calls,
       fetch attempt = DownloadError e ->
       Advanced.try_qualities self video fetch n attempt (quality :: rest) calls
       = (Advanced.add_skipped (Advanced._record_failure self video e true),
          calls ++ [quality], Returns false).
Proof.
  split.
  - unfold Stealth.is_permanent. apply orb_true_iff in Hadvanced as [H|H].
    + apply (contains_part "video " "unavailable" "") in H. by rewrite H.
    + apply (contains_part "" "private" " video") in H.
      rewrite H. by rewrite orb_true_r.
  - intros self video fetch n attempt quality rest calls Hfetch. simpl.
    by rewrite Hfetch, Hadvanced.
Qed.

Lemma rstrip_no_videos (s : string) :
  Py.contains "/videos" (Py.rstrip_char "/" s +:+ "/videos") = true.
Proof. apply contains_spec. by exists (Py.rstrip_char "/" s), "". Qed.

(** The rewriting of the channel URL reaches the videos tab in one step
    and then stays there: a URL with a handle ([@]) comes out naming
    [/videos], any other URL comes out as it went in, and rewriting the
    result changes nothing. *)
Theorem videos_tab_url_is_idempotent (channel_url : string) :
  Stealth.videos_tab_url (Stealth.videos_tab_url channel_url)
  = Stealth.videos_tab_url channel_url
  /\ (if Py.contains "@" channel_url
      then Py.contains "/videos" (Stealth.videos_tab_url channel_url) = true
      else Stealth.videos_tab_url channel_url = channel_url).
Proof.
  unfold Stealth.videos_tab_url at 2 3 4.
  destruct (Py.contains "@" channel_url) eqn:Hat; simpl.
  - destruct (Py.contains "/videos" channel_url) eqn:Hv; simpl.
    + unfold Stealth.videos_tab_url. by rewrite Hat, Hv.
    + unfold Stealth.videos_tab_url.
      by rewrite rstrip_no_videos, andb_false_r.
  - unfold Stealth.videos_tab_url. by rewrite Hat.
Qed.

End StringFacts.

(** ** The advanced downloader: delays and qualities *)

Section AdvancedDelayFacts.

Import Advanced.

(** [_adaptive_delay] fails in one situation only, a batch size of zero
    once a download has been made in the session, where the remainder it
    takes divides by zero; in every other situation it returns a delay of
    at least [min_delay]. *)
Theorem adaptive_delay_fails_only_for_batch_size_0 (self : downloader)
    (r : delay_draws) :
  match _adaptive_delay self r with
  | Some delay =>
      (inject_Z (min_delay self) <= delay)%Q
      /\ (batch_size self <> 0 \/ downloads_in_session self <= 0)
  | None => batch_size self = 0 /\ 0 < downloads_in_session self
  end.
Proof.
  unfold _adaptive_delay.
  destruct (Z.ltb_spec 0 (downloads_in_session self)).
  - destruct (Z.eqb_spec (batch_size self) 0); [done|].
    destruct (_ =? 0); (split; [apply max_lower_bound|by left]).
  - split; [apply max_lower_bound|by right].
Qed.

Lemma dedupe_from_spec (seen l : list string) :
  NoDup (Py.dedupe_from seen l)
  /\ (forall x, x ∈ Py.dedupe_from seen l <-> x ∈ l /\ x ∉ seen)
  /\ (length (Py.dedupe_from seen l) <= length l)%nat.
Proof.
  revert seen. induction l as [|x l IH]; intros seen; simpl.
  { split_and!; [constructor| |lia]. intros x. set_solver. }
  case_bool_decide as Hseen.
  - destruct (IH seen) as (Hnd & Hin & Hlen). split_and!; [done| |lia].
    intros y. rewrite Hin. set_solver.
  - destruct (IH (x :: seen)) as (Hnd & Hin & Hlen). split_and!; [|  |simpl; lia].
    + constructor; [|done]. rewrite Hin. set_solver.
    + intros y. rewrite elem_of_cons, Hin.
      destruct (decide (y = x)); set_solver.
Qed.

Lemma try_qualities_calls video fetch n qualities :
  forall attempt self calls self' calls' c,
  try_qualities self video fetch n attempt qualities calls = (self', calls', c) ->
  exists tried, calls' = calls ++ tried /\ tried `prefix_of` qualities.
Proof.
  induction qualities as [|quality rest IH];
    intros attempt self calls self' calls' c; simpl.
  { intros [= <- <- <-]. exists []. by rewrite app_nil_r. }
  assert (Hone : exists tried, calls ++ [quality] = calls ++ tried
                               /\ tried `prefix_of` quality :: rest).
  { exists [quality]. split; [done|]. by exists rest. }
  assert (Hnext : forall s a,
    try_qualities s video fetch n a rest (calls ++ [quality]) = (self', calls', c) ->
    exists tried, calls' = calls ++ tried /\ tried `prefix_of` quality :: rest).
  { intros s a Htry. apply IH in Htry as (tried & -> & [k ->]).
    exists (quality :: tried). rewrite <- app_assoc. split; [done|]. by exists k. }
  destruct (fetch attempt) as [|e|e|].
  - intros [= <- <- <-]. done.
  - destruct (_ || _); [intros [= <- <- <-]; done|].
    destruct (Py.contains "sign in" (Py.lower e)); apply Hnext.
  - apply Hnext.
  - intros [= <- <- <-]. done.
Qed.

(** One processing of a video calls [ydl.download] at most four times:
    the qualities tried are a leading part of the four candidates with
    the doubles left out, so the requested quality comes first, then 192,
    128 and 96, and no quality is tried twice. *)
Theorem qualities_are_tried_in_order_without_repeats (self : downloader)
    (video : video) (fetch : nat -> fetch_result) :
  let '(_, calls, _) := _download_video_with_fallback self video fetch in
  let options := Py.dedupe [quality self; "192"; "128"; "96"] in
  calls `prefix_of` options
  /\ NoDup calls
  /\ (length calls <= 4)%nat
  /\ hd_error options = Some (quality self)
  /\ (forall q, q ∈ options <-> q ∈ [quality self; "192"; "128"; "96"]).
Proof.
  destruct (_download_video_with_fallback self video fetch)
    as [[self' calls] c] eqn:Hrun.
  cbv zeta.
  destruct (dedupe_from_spec [] [quality self; "192"; "128"; "96"])
    as (Hnd & Hin & Hlen).
  fold (Py.dedupe [quality self; "192"; "128"; "96"]) in Hnd, Hin, Hlen.
  assert (Hprefix : calls `prefix_of` Py.dedupe [quality self; "192"; "128"; "96"]).
  { revert Hrun. unfold _download_video_with_fallback.
    case_bool_decide; [intros [= <- <- <-]; apply prefix_nil|].
    destruct (_ <=? _).
    { destruct (negb _); intros [= <- <- <-]; apply prefix_nil. }
    intros Htry. by apply try_qualities_calls in Htry as (tried & -> & Htried). }
  split; [done|]. split_and!.
  - destruct Hprefix as [k Hk]. rewrite Hk in Hnd.
    by apply NoDup_app in Hnd as [? _].
  - apply prefix_length in Hprefix.
    change (length [quality self; "192"; "128"; "96"]) with 4%nat in Hlen. lia.
  - done.
  - intros q. rewrite Hin. set_solver.
Qed.

End AdvancedDelayFacts.

(** ** The advanced downloader: runs *)

Section AdvancedRunClaims.

Import Advanced.

Lemma advanced_download_channel_eq self url limit reverse date_after w :
  download_channel self url limit reverse date_after w
  = if bool_decide (w_videos w = []) then (self, [], RunReturns false)
    else
      let videos := selected_videos limit reverse date_after (w_videos w) in
      match videos with
      | [] =>
          (set_stats self
             {| downloaded := downloaded (stats self); skipped := skipped (stats self);
                failed := failed (stats self); total := Z.of_nat (length videos) |},
           [], RunRaises IndexError)
      | first :: _ =>
          match download_loop w (length videos) 0 videos
                  (prepared self url videos first) [] with
          | (self, fetched, Interrupt) => (self, fetched, RunInterrupt)
          | (self, fetched, Raise e) => (self, fetched, RunRaises e)
          | (self, fetched, Normal) =>
              (_log_session self, fetched,
               RunReturns (failed (stats (_log_session self)) =? 0))
          end
      end.
Proof. reflexivity. Qed.

Lemma adaptive_delay_none self r :
  _adaptive_delay self r = None -> batch_size self = 0.
Proof.
  unfold _adaptive_delay.
  destruct (0 <? downloads_in_session self); [|done].
  destruct (Z.eqb_spec (batch_size self) 0); [done|].
  by destruct (_ =? 0).
Qed.

(** What the loop never touches: the session history, the session id and
    the settings. *)
Lemma advanced_loop_keeps w total videos i self fetched self' fetched' c :
  download_loop w total i videos self fetched = (self', fetched', c) ->
  sessions (progress_data self') = sessions (progress_data self)
  /\ session_id self' = session_id self
  /\ batch_size self' = batch_size self.
Proof.
  intros Hloop.
  eapply (advanced_loop_invariant
            (fun s => sessions (progress_data s) = sessions (progress_data self)
                      /\ session_id s = session_id self
                      /\ batch_size s = batch_size self)
            (fun _ => True)) in Hloop as [HP _]; try done.
  - intros s video q (H1 & H2 & H3) _. unfold record_success.
    by case_bool_decide.
  - by apply Forall_true.
Qed.

Lemma advanced_loop_raise w total videos : forall i self fetched self' fetched' e,
  download_loop w total i videos self fetched = (self', fetched', Raise e) ->
  e = ZeroDivisionError /\ batch_size self' = 0.
Proof.
  induction videos as [|video rest IH]; intros i self fetched self' fetched' e; simpl.
  { done. }
  destruct (w_stop w i); [done|].
  destruct (_download_video_with_fallback self video (w_fetch w i))
    as [[self1 calls] [success|]]; [|done].
  destruct (Z.of_nat i <? Z.of_nat total - 1); [|apply IH].
  destruct (_adaptive_delay self1 (w_delay w i)) eqn:Hdelay.
  - destruct (w_interrupt_wait w i); [done|apply IH].
  - intros [= <- <- <-]. split; [done|]. by eapply adaptive_delay_none.
Qed.

(** The two exceptions that can leave [download_channel].  It raises
    [IndexError], at [videos[0]], exactly when the channel has videos but
    the date filter and the limit leave none; it can raise
    [ZeroDivisionError] only with a batch size of zero.  In both cases
    nothing is appended to the session history, and [main] exits with
    code 1. *)
Theorem advanced_run_exceptions (self : downloader) (url : string)
    (limit : option Z) (reverse : bool) (date_after : option string) (w : world) :
  let '(self', fetched, c) := download_channel self url limit reverse date_after w in
  (c = RunRaises IndexError
   <-> w_videos w <> []
       /\ selected_videos limit reverse date_after (w_videos w) = [])
  /\ (c = RunRaises ZeroDivisionError -> batch_size self = 0)
  /\ (forall e, c = RunRaises e ->
        sessions (progress_data self') = sessions (progress_data self)
        /\ fst (fst (main self url limit reverse date_after w)) = 1).
Proof.
  destruct (download_channel self url limit reverse date_after w)
    as [[self' fetched] c] eqn:Hrun.
  assert (Hmain : forall e, c = RunRaises e ->
            fst (fst (main self url limit reverse date_after w)) = 1).
  { intros e ->. unfold main. by rewrite Hrun. }
  revert Hrun. rewrite advanced_download_channel_eq.
  case_bool_decide as Hnil.
  { intros [= <- <- <-]. split_and!; try done. split; [done|]. by intros [? _]. }
  cbv zeta.
  destruct (selected_videos limit reverse date_after (w_videos w))
    as [|first rest] eqn:Hsel.
  { intros [= <- <- <-]. split_and!; try done. intros e _. split; [done|eauto]. }
  destruct (download_loop _ _ _ _ _ _) as [[self1 fetched1] c1] eqn:Hloop.
  pose proof (advanced_loop_keeps _ _ _ _ _ _ _ _ _ Hloop) as (Hs & Hid & Hb).
  destruct c1 as [| |e].
  - intros [= <- <- <-]. split_and!; try done. split; [done|]. by intros [_ ?].
  - intros [= <- <- <-]. split_and!; try done. split; [done|]. by intros [_ ?].
  - apply advanced_loop_raise in Hloop as [-> Hzero].
    intros [= <- <- <-]. split_and!.
    + split; [done|]. by intros [_ ?].
    + intros _. rewrite Hb in Hzero. exact Hzero.
    + intros e He. split; [by rewrite Hs|eauto].
Qed.

(** The session history of the advanced downloader only grows, by at most
    one record a run.  [main] exits with 0, 1 or 130.  A run that is
    interrupted (130) and a run that completes without failure (0) both
    append the record of the session, made of the three counters at the
    end of the run; exit code 0 means that the failure counter is zero. *)
Theorem advanced_run_logs_the_session (self : downloader) (url : string)
    (limit : option Z) (reverse : bool) (date_after : option string) (w : world) :
  let '(code, self', _) := main self url limit reverse date_after w in
  let before := sessions (progress_data self) in
  let after := sessions (progress_data self') in
  let record := {| s_id := session_id self;
                   s_downloaded := downloaded (stats self');
                   s_failed := failed (stats self');
                   s_skipped := skipped (stats self') |} in
  (code = 0 \/ code = 1 \/ code = 130)
  /\ (after = before \/ after = before ++ [record])
  /\ (code = 130 -> after = before ++ [record])
  /\ (code = 0 -> after = before ++ [record] /\ failed (stats self') = 0).
Proof.
  unfold main. rewrite advanced_download_channel_eq.
  case_bool_decide as Hnil.
  { simpl. split_and!; try done; auto. }
  cbv zeta.
  destruct (selected_videos limit reverse date_after (w_videos w))
    as [|first rest] eqn:Hsel.
  { simpl. split_and!; try done; auto. }
  destruct (download_loop _ _ _ _ _ _) as [[self1 fetched1] c1] eqn:Hloop.
  pose proof (advanced_loop_keeps _ _ _ _ _ _ _ _ _ Hloop) as (Hs & Hid & Hb).
  simpl in Hs, Hid.
  destruct c1 as [| |e]; simpl.
  - rewrite Hs, Hid.
    destruct (failed (stats self1) =? 0) eqn:Hfailed; simpl;
      split_and!; try done; auto.
    intros _. split; [done|]. by apply Z.eqb_eq.
  - rewrite Hs, Hid. split_and!; try done; auto.
  - rewrite Hs. split_and!; try done; auto.
Qed.

End AdvancedRunClaims.

Section AdvancedRecordClaims.

Import Advanced.

Lemma advanced_record_failure_lookup self video e permanent :
  failed_videos (progress_data (_record_failure self video e permanent)) !! id video
  = Some {| f_title := from_option f_title (title video)
                         (failed_videos (progress_data self) !! id video);
            attempts := from_option attempts 0
                          (failed_videos (progress_data self) !! id video) + 1;
            errors := from_option errors []
                        (failed_videos (progress_data self) !! id video)
                      ++ [String.substring 0 200 e];
            permanent_failure := permanent |}.
Proof.
  unfold _record_failure. simpl. rewrite lookup_alter_eq.
  destruct (failed_videos (progress_data self) !! id video) as [f|] eqn:E.
  - by rewrite E.
  - by rewrite lookup_insert_eq.
Qed.

Lemma advanced_record_failure_lookup_ne self video e permanent other :
  other <> id video ->
  failed_videos (progress_data (_record_failure self video e permanent)) !! other
  = failed_videos (progress_data self) !! other.
Proof.
  intros Hne. unfold _record_failure. simpl. rewrite lookup_alter_ne by done.
  destruct (failed_videos (progress_data self) !! id video); [done|].
  by rewrite lookup_insert_ne.
Qed.

Lemma substring_length (n : nat) (s : string) :
  (String.length (String.substring 0 n s) <= n)%nat.
Proof.
  revert s. induction n as [|n IH]; intros [|c s]; simpl; try lia.
  specialize (IH s). lia.
Qed.

(** When every failure record lists one error for each attempt, each cut
    to 200 characters, as the records the downloader writes do, a run
    leaves the records so: every failure it counts it also describes. *)
Theorem failure_records_stay_well_kept (self : downloader) (url : string)
    (limit : option Z) (reverse : bool) (date_after : option string) (w : world)
    (Hkept : map_Forall (fun _ f => well_kept f)
               (failed_videos (progress_data self))) :
  let '(_, self', _) := main self url limit reverse date_after w in
  map_Forall (fun _ f => well_kept f) (failed_videos (progress_data self')).
Proof.
  destruct (main self url limit reverse date_after w) as [[code self'] fetched] eqn:Hrun.
  eapply (advanced_main_invariant
            (fun s => map_Forall (fun _ f => well_kept f)
                        (failed_videos (progress_data s)))
            (fun _ => True)) in Hrun as [HP _]; try done.
  - intros s pd HP _ Hsame. simpl. by rewrite Hsame.
  - intros s video e permanent HP _ other f.
    destruct (decide (other = id video)) as [->|Hne].
    + rewrite advanced_record_failure_lookup. intros [= <-].
      destruct (failed_videos (progress_data s) !! id video) as [old|] eqn:Hold;
        simpl.
      * destruct (HP _ _ Hold) as [Hlen Hall]. split; simpl.
        -- rewrite length_app. simpl. lia.
        -- apply Forall_app. split; [done|].
           apply Forall_singleton, substring_length.
      * split; simpl; [done|]. apply Forall_singleton, substring_length.
    + rewrite advanced_record_failure_lookup_ne by done. apply HP.
  - intros s video q HP _. unfold record_success.
    case_bool_decide; simpl; [|done]. by apply map_Forall_delete.
Qed.

(** A run never leaves a video with both a download record and a failure
    record unless it found it so: the success path clears the failure
    record, and failures are recorded only for videos not yet downloaded. *)
Theorem advanced_run_creates_no_overlap (self : downloader) (url : string)
    (limit : option Z) (reverse : bool) (date_after : option string) (w : world) :
  let '(_, self', _) := main self url limit reverse date_after w in
  dom (downloaded_videos (progress_data self'))
    ∩ dom (failed_videos (progress_data self'))
  ⊆ dom (downloaded_videos (progress_data self))
      ∩ dom (failed_videos (progress_data self)).
Proof.
  destruct (main self url limit reverse date_after w) as [[code self'] fetched] eqn:Hrun.
  eapply (advanced_main_invariant
            (fun s => dom (downloaded_videos (progress_data s))
                        ∩ dom (failed_videos (progress_data s))
                      ⊆ dom (downloaded_videos (progress_data self))
                          ∩ dom (failed_videos (progress_data self)))
            (fun _ => True)) in Hrun as [HP _]; try done.
  - intros s pd HP Hsame1 Hsame2. simpl. by rewrite Hsame1, Hsame2.
  - intros s video e permanent HP Hnone.
    rewrite advanced_record_failure_dom. simpl.
    apply not_elem_of_dom in Hnone.
    intros k Hk. apply HP. set_solver.
  - intros s video q HP Hnone. unfold record_success.
    case_bool_decide; simpl.
    + rewrite dom_delete_L, dom_insert_L. intros k Hk. apply HP. set_solver.
    + rewrite dom_insert_L.
      assert (id video ∉ dom (failed_videos (progress_data s))).
      { rewrite elem_of_dom. done. }
      intros k Hk. apply HP. set_solver.
Qed.

(** The counter of the downloads of the session counts the new download
    records and nothing else: over a run it grows by exactly the number
    of entries the run adds to [downloaded_videos]. *)
Theorem session_counter_counts_new_records (self : downloader) (url : string)
    (limit : option Z) (reverse : bool) (date_after : option string) (w : world) :
  let '(_, self', _) := main self url limit reverse date_after w in
  downloads_in_session self' - downloads_in_session self
  = Z.of_nat (size (downloaded_videos (progress_data self')))
    - Z.of_nat (size (downloaded_videos (progress_data self)))
  /\ downloads_in_session self <= downloads_in_session self'.
Proof.
  destruct (main self url limit reverse date_after w) as [[code self'] fetched] eqn:Hrun.
  eapply (advanced_main_invariant
            (fun s => downloads_in_session s - downloads_in_session self
                      = Z.of_nat (size (downloaded_videos (progress_data s)))
                        - Z.of_nat (size (downloaded_videos (progress_data self)))
                      /\ downloads_in_session self <= downloads_in_session s)
            (fun _ => True)) in Hrun as [HP _]; try done; [| |split; lia].
  - intros s pd HP Hsame _. simpl. by rewrite Hsame.
  - intros s video q [HP1 HP2] Hnone. unfold record_success.
    case_bool_decide; simpl; rewrite map_size_insert_None by done; lia.
Qed.

End AdvancedRecordClaims.

Section AdvancedSelectionFacts.

Import Advanced.

Lemma advanced_loop_fetched w total videos : forall i self fetched self' fetched' c,
  download_loop w total i videos self fetched = (self', fetched', c) ->
  exists extra,
    fetched' = fetched ++ extra
    /\ Forall (fun call : fetch_call => call.1 ∈ map id videos) extra.
Proof.
  induction videos as [|video rest IH]; intros i self fetched self' fetched' c; simpl.
  { intros [= <- <- <-]. exists []. by rewrite app_nil_r. }
  destruct (w_stop w i).
  { intros [= <- <- <-]. exists []. by rewrite app_nil_r. }
  destruct (_download_video_with_fallback self video (w_fetch w i))
    as [[self1 calls] c1].
  assert (Hcalls : Forall (fun call : fetch_call => call.1 ∈ id video :: map id rest)
                     (map (fun q => (id video, q)) calls)).
  { apply Forall_fmap, Forall_true. intros q. simpl. by left. }
  assert (Hstop : exists extra,
    fetched ++ map (fun q => (id video, q)) calls = fetched ++ extra
    /\ Forall (fun call : fetch_call => call.1 ∈ id video :: map id rest) extra)
    by eauto.
  assert (Hnext : forall j,
    download_loop w total j rest self1 (fetched ++ map (fun q => (id video, q)) calls)
    = (self', fetched', c) ->
    exists extra,
      fetched' = fetched ++ extra
      /\ Forall (fun call : fetch_call => call.1 ∈ id video :: map id rest) extra).
  { intros j Hloop. apply IH in Hloop as (extra & -> & Hextra).
    exists (map (fun q => (id video, q)) calls ++ extra).
    rewrite app_assoc. split; [done|]. apply Forall_app. split; [done|].
    eapply Forall_impl; [done|]. intros call Hc. by right. }
  destruct c1 as [success|]; [|intros [= <- <- <-]; done].
  destruct (Z.of_nat i <? Z.of_nat total - 1); [|apply Hnext].
  destruct (_adaptive_delay self1 (w_delay w i)); [|intros [= <- <- <-]; done].
  destruct (w_interrupt_wait w i); [intros [= <- <- <-]; done|apply Hnext].
Qed.

Lemma slice_to_elem_of {A} (n : Z) (l : list A) (x : A) :
  x ∈ Py.slice_to n l -> x ∈ l.
Proof.
  intros Hx. destruct (slice_to_prefix n l) as [k Hk]. rewrite Hk.
  apply elem_of_app. by left.
Qed.

Lemma selected_videos_elem_of limit reverse date_after videos v :
  v ∈ selected_videos limit reverse date_after videos ->
  v ∈ videos
  /\ match date_after with
     | Some d =>
         d = "" \/ String.leb (Py.remove_char "-" d) (upload_date v) = true
     | None => True
     end.
Proof.
  unfold selected_videos.
  set (dated := match date_after with
                | Some d =>
                    if String.eqb d "" then videos
                    else List.filter
                           (fun v => String.leb (Py.remove_char "-" d) (upload_date v))
                           videos
                | None => videos
                end).
  assert (Hdated : v ∈ dated ->
    v ∈ videos
    /\ match date_after with
       | Some d =>
           d = "" \/ String.leb (Py.remove_char "-" d) (upload_date v) = true
       | None => True
       end).
  { subst dated. destruct date_after as [d|]; [|done].
    destruct (String.eqb_spec d ""); [auto|].
    rewrite list_elem_of_In, filter_In, <- list_elem_of_In. intros [? ?]. auto. }
  set (ordered := if reverse then rev dated else dated).
  assert (Hordered : v ∈ ordered -> v ∈ dated).
  { subst ordered. destruct reverse; [|done].
    rewrite !list_elem_of_In. apply in_rev. }
  intros Hv. apply Hdated, Hordered.
  destruct limit as [l|]; [|done]. destruct (l =? 0); [done|].
  by eapply slice_to_elem_of.
Qed.

(** The advanced downloader calls [ydl.download] only for videos it
    selected.  The selected videos are videos of the channel's list; with
    a date given none of them was uploaded before it, and with a positive
    limit they are no more than the limit. *)
Theorem advanced_fetches_only_selected_videos (self : downloader) (url : string)
    (limit : option Z) (reverse : bool) (date_after : option string) (w : world) :
  let '(_, fetched, _) := download_channel self url limit reverse date_after w in
  let selected := selected_videos limit reverse date_after (w_videos w) in
  Forall (fun call : fetch_call => call.1 ∈ map id selected) fetched
  /\ Forall (fun v => v ∈ w_videos w) selected
  /\ match date_after with
     | Some d =>
         d = ""
         \/ Forall (fun v => String.leb (Py.remove_char "-" d) (upload_date v) = true)
              selected
     | None => True
     end
  /\ match limit with
     | Some l => l <= 0 \/ Z.of_nat (length selected) <= l
     | None => True
     end.
Proof.
  destruct (download_channel self url limit reverse date_after w)
    as [[self' fetched] c] eqn:Hrun.
  cbv zeta. split_and!.
  - revert Hrun. rewrite advanced_download_channel_eq.
    case_bool_decide; [intros [= <- <- <-]; constructor|].
    cbv zeta.
    destruct (selected_videos limit reverse date_after (w_videos w))
      as [|first rest] eqn:Hsel; [intros [= <- <- <-]; constructor|].
    destruct (download_loop _ _ _ _ _ _) as [[self1 fetched1] c1] eqn:Hloop.
    apply advanced_loop_fetched in Hloop as (extra & -> & Hextra).
    destruct c1; intros [= <- <- <-]; done.
  - apply Forall_forall. intros v Hv.
    by apply selected_videos_elem_of in Hv as [? _].
  - destruct date_after as [d|]; [|done].
    destruct (decide (d = "")); [by left|right].
    apply Forall_forall. intros v Hv.
    apply selected_videos_elem_of in Hv as [_ [?|?]]; done.
  - destruct limit as [l|]; [|done].
    destruct (Z.le_gt_cases l 0); [by left|right].
    unfold selected_videos. rewrite (proj2 (Z.eqb_neq l 0)) by lia.
    apply slice_to_length. lia.
Qed.

End AdvancedSelectionFacts.

(** ** The rotation of cookie files *)

Section CookieFacts.

Import Cookies.

Lemma insert_by_Permutation {A} (key : A -> Q) (x : A) (l : list A) :
  Py.insert_by key x l ≡ₚ x :: l.
Proof.
  induction l as [|y l IH]; simpl; [done|].
  destruct (Py.Qltb (key y) (key x)); [|done].
  rewrite IH. apply perm_swap.
Qed.

Lemma sorted_by_Permutation {A} (key : A -> Q) (l : list A) :
  Py.sorted_by key l ≡ₚ l.
Proof.
  induction l as [|x l IH]; simpl; [done|].
  by rewrite insert_by_Permutation, IH.
Qed.

Lemma insert_by_head_least {A} (key : A -> Q) (x : A) (l : list A) :
  head_least key l -> head_least key (Py.insert_by key x l).
Proof.
  destruct l as [|y l]; simpl.
  { intros _ g Hg. apply list_elem_of_singleton in Hg as ->. apply Qle_refl. }
  intros Hy. destruct (Py.Qltb (key y) (key x)) eqn:E.
  - apply Qltb_lt in E. intros g Hg.
    apply elem_of_cons in Hg as [->|Hg]; [apply Qle_refl|].
    rewrite insert_by_Permutation in Hg.
    apply elem_of_cons in Hg as [->|Hg]; [by apply Qlt_le_weak|].
    apply Hy. by right.
  - apply Qltb_ge in E. intros g Hg.
    apply elem_of_cons in Hg as [->|Hg]; [apply Qle_refl|].
    eapply Qle_trans; [exact E|]. by apply Hy.
Qed.

Lemma sorted_by_head_least {A} (key : A -> Q) (l : list A) :
  head_least key (Py.sorted_by key l).
Proof. induction l as [|x l IH]; simpl; [done|]. by apply insert_by_head_least. Qed.

Lemma next_cookie_file_spec self now :
  match get_next_cookie_file self now with
  | (self', None) => cookie_files self = [] /\ self' = self
  | (self', Some f) =>
      f ∈ cookie_files self
      /\ (forall g, g ∈ cookie_files self ->
            (last_used_of (usage_stats self) f <= last_used_of (usage_stats self) g)%Q)
      /\ cookie_files self' = cookie_files self
      /\ current_cookie_file self' = Some f
      /\ usage_stats self' !! f
         = Some {| count := from_option count 0 (usage_stats self !! f) + 1;
                   last_used := now |}
      /\ (forall g, g <> f -> usage_stats self' !! g = usage_stats self !! g)
  end.
Proof.
  unfold get_next_cookie_file.
  destruct (cookie_files self) as [|f0 files] eqn:Hfiles; [done|].
  rewrite <- Hfiles.
  pose proof (sorted_by_Permutation (last_used_of (usage_stats self)) (cookie_files self))
    as Hperm.
  pose proof (sorted_by_head_least (last_used_of (usage_stats self)) (cookie_files self))
    as Hleast.
  destruct (Py.sorted_by (last_used_of (usage_stats self)) (cookie_files self))
    as [|f rest] eqn:Hsorted.
  { apply Permutation_nil_l in Hperm. congruence. }
  simpl in Hleast. split_and!; simpl.
  - rewrite <- Hperm. by left.
  - intros g Hg. apply Hleast. by rewrite Hperm.
  - done.
  - done.
  - rewrite lookup_alter_eq.
    destruct (usage_stats self !! f) as [u|] eqn:Hu; [by rewrite Hu|].
    by rewrite lookup_insert_eq.
  - intros g Hg. rewrite lookup_alter_ne by done.
    destruct (usage_stats self !! f); [done|]. by rewrite lookup_insert_ne.
Qed.

(** [get_next_cookie_file] answers [None] exactly when there is no cookie
    file.  Otherwise it picks one of the files, none of which was used
    longer ago, counts one more use for it and stamps it with the time of
    the call, and leaves the statistics of every other file alone.
    [get_yt_dlp_opts] falls back to the cookies of the browser exactly when
    there is no cookie file. *)
Theorem next_cookie_file_is_least_recently_used (self : manager) (now : Q) :
  match get_next_cookie_file self now with
  | (self', None) => cookie_files self = [] /\ self' = self
  | (self', Some f) =>
      f ∈ cookie_files self
      /\ (forall g, g ∈ cookie_files self ->
            (last_used_of (usage_stats self) f <= last_used_of (usage_stats self) g)%Q)
      /\ cookie_files self' = cookie_files self
      /\ current_cookie_file self' = Some f
      /\ usage_stats self' !! f
         = Some {| count := from_option count 0 (usage_stats self !! f) + 1;
                   last_used := now |}
      /\ (forall g, g <> f -> usage_stats self' !! g = usage_stats self !! g)
  end
  /\ (snd (get_yt_dlp_opts self now) = cookiesfrombrowser "firefox"
      <-> cookie_files self = []).
Proof.
  split; [apply next_cookie_file_spec|].
  pose proof (next_cookie_file_spec self now) as Hspec.
  unfold get_yt_dlp_opts.
  destruct (get_next_cookie_file self now) as [self' [f|]]; simpl.
  - destruct Hspec as (Hin & _). split; [done|].
    intros Hnil. rewrite Hnil in Hin. by apply elem_of_nil in Hin.
  - by destruct Hspec as [-> _].
Qed.

(** The files rotate: when the clock at a call is past every recorded use
    and there is another cookie file, the next call picks a file other
    than the one just used. *)
Theorem cookie_files_rotate (self self1 self2 : manager) (now1 now2 : Q)
    (f1 f2 : string)
    (Hfirst : get_next_cookie_file self now1 = (self1, Some f1))
    (Hsecond : get_next_cookie_file self1 now2 = (self2, Some f2))
    (Hclock : forall g, g ∈ cookie_files self ->
                (last_used_of (usage_stats self) g < now1)%Q)
    (Hother : exists g, g ∈ cookie_files self /\ g <> f1) :
  f2 <> f1.
Proof.
  pose proof (next_cookie_file_spec self now1) as H1. rewrite Hfirst in H1.
  destruct H1 as (Hin1 & _ & Hfiles & _ & Hstat1 & Hrest1).
  pose proof (next_cookie_file_spec self1 now2) as H2. rewrite Hsecond in H2.
  destruct H2 as (_ & Hleast2 & _).
  destruct Hother as (g & Hg & Hne).
  intros ->.
  specialize (Hleast2 g). rewrite Hfiles in Hleast2. specialize (Hleast2 Hg).
  unfold last_used_of in Hleast2 at 1 2. rewrite Hstat1, (Hrest1 g Hne) in Hleast2.
  simpl in Hleast2. specialize (Hclock g Hg). unfold last_used_of in Hclock.
  lra.
Qed.

End CookieFacts.

(** ** The further theorems at concrete inputs *)

Lemma time_check_is_advisory_outside_paranoid_witness :
  Stealth.download_channel high_downloader "https://www.youtube.com/@channel"
    None None (with_hour complete_world 3)
  = Stealth.download_channel high_downloader "https://www.youtube.com/@channel"
      None None complete_world.
Proof.
  apply (time_check_is_advisory_outside_paranoid high_downloader
           "https://www.youtube.com/@channel" None None complete_world 3).
  reflexivity.
Defined.

Lemma daily_counter_is_resumed_witness :
  Stealth.downloads_today
    (Stealth.__init__ 0 0 "low" (Stealth.progress_data (snd (fst complete_run)))
       "2025-01-01" "session2")
  = Stealth.downloads_today (snd (fst complete_run)).
Proof.
  pose proof (daily_counter_is_resumed low_args Stealth.empty_progress
                "2025-01-01" "session1" complete_world (fun _ => eq_refl)) as H.
  unfold complete_run.
  destruct (Stealth.main low_args Stealth.empty_progress "2025-01-01" "session1"
              complete_world) as [[code self'] fetched].
  exact (H 0 0 "low" "session2").
Defined.

Lemma human_like_delay_upper_bound_witness :
  (Stealth._human_like_delay (stealth_after 0) plain_draws
   <= inject_Z 600 * (1 + 0.2) * 1.5 + 1830)%Q.
Proof.
  apply (human_like_delay_upper_bound (stealth_after 0) plain_draws).
  - vm_compute. discriminate.
  - vm_compute. discriminate.
  - vm_compute. split; discriminate.
  - vm_compute. split; discriminate.
  - vm_compute. split; discriminate.
  - vm_compute. split; discriminate.
Defined.

Lemma permanent_errors_stay_permanent_in_context_witness :
  Stealth.is_permanent ("yt-dlp: " +:+ unavailable +:+ " (giving up)") = true.
Proof.
  apply (permanent_errors_stay_permanent_in_context unavailable
           "yt-dlp: " " (giving up)").
  reflexivity.
Defined.

Lemma advanced_permanent_is_stealth_permanent_witness :
  Stealth.is_permanent unavailable = true.
Proof.
  apply (advanced_permanent_is_stealth_permanent unavailable).
  reflexivity.
Defined.

Lemma failure_records_stay_well_kept_witness :
  map_Forall (fun _ f => well_kept f)
    (Advanced.failed_videos (Advanced.progress_data (snd (fst sign_in_run)))).
Proof.
  pose proof (failure_records_stay_well_kept
                (Advanced.__init__ "320" 45 180 3 5 advanced_empty "session1")
                "https://www.youtube.com/@channel" None false None
                (advanced_world (fun _ _ => DownloadError sign_in) (fun _ => false))
                (map_Forall_empty _)) as H.
  unfold sign_in_run.
  destruct (Advanced.main _ _ _ _ _ _) as [[code self'] fetched].
  exact H.
Defined.

Lemma cookie_files_rotate_witness :
  snd (Cookies.get_next_cookie_file two_cookies 100) = Some "cookies/a.txt"
  /\ "cookies/b.txt" <> "cookies/a.txt".
Proof.
  split; [reflexivity|].
  apply (cookie_files_rotate two_cookies
           (fst (Cookies.get_next_cookie_file two_cookies 100))
           (fst (Cookies.get_next_cookie_file
                   (fst (Cookies.get_next_cookie_file two_cookies 100)) 200))
           100 200 "cookies/a.txt" "cookies/b.txt").
  - vm_compute. reflexivity.
  - vm_compute. reflexivity.
  - intros g _. unfold Cookies.last_used_of. simpl. rewrite lookup_empty.
    reflexivity.
  - exists "cookies/b.txt". split; [|discriminate].
    apply elem_of_cons. right. apply elem_of_cons. by left.
Defined.

(** ** Every order of the shuffle *)

Section ShuffleReach.

Lemma swap_app_l {A} (i j : nat) (p s : list A) :
  (i < length p)%nat -> (j < length p)%nat ->
  Py.swap i j (p ++ s) = Py.swap i j p ++ s.
Proof.
  intros Hi Hj. unfold Py.swap. rewrite !lookup_app_l by done.
  destruct (lookup_lt_is_Some_2 p i Hi) as [a ->].
  destruct (lookup_lt_is_Some_2 p j Hj) as [b ->].
  rewrite (insert_app_l p s j a) by done.
  by rewrite insert_app_l by (by rewrite length_insert).
Qed.

Lemma shuffle_from_S {A} (i : nat) (draws : list nat) (l : list A) :
  Py.shuffle_from (S i) draws l
  = Py.shuffle_from i (tl draws) (Py.swap (S i) (hd 0%nat draws mod (S i + 1)) l).
Proof. reflexivity. Qed.

(** The exchange of the last position with position [j] brings the
    element at [j] to the end. *)
Lemma swap_last {A} (m j : nat) (p : list A) (x : A) :
  length p = S m -> p !! j = Some x ->
  exists q, Py.swap m j p = q ++ [x] /\ length q = m.
Proof.
  intros Hlen Hj.
  assert (Hm : is_Some (p !! m)) by (apply lookup_lt_is_Some_2; lia).
  destruct Hm as [y Hm].
  exists (take m (Py.swap m j p)).
  assert (Hsw : Py.swap m j p = <[m := x]> (<[j := y]> p)).
  { unfold Py.swap. by rewrite Hm, Hj. }
  assert (Hlen' : length (Py.swap m j p) = S m).
  { by rewrite Hsw, !length_insert. }
  assert (Hx : Py.swap m j p !! m = Some x).
  { rewrite Hsw. apply list_lookup_insert_eq. rewrite length_insert. lia. }
  split.
  - rewrite <- (take_drop_middle _ _ _ Hx) at 1.
    by rewrite drop_ge by lia.
  - rewrite length_take. lia.
Qed.

Lemma snoc_of_length {A} (l : list A) (n : nat) :
  length l = S n -> exists front x, l = front ++ [x].
Proof.
  destruct l as [|a l] using rev_ind; [done|]. intros _. eauto.
Qed.

(** The exchange loop from position [n] down can leave the first [n + 1]
    elements in any order, and leaves the rest alone. *)
Lemma shuffle_from_reaches {A} (n : nat) : forall (p s target : list A),
  length p = S n -> target ≡ₚ p ->
  exists draws, Py.shuffle_from n draws (p ++ s) = target ++ s.
Proof.
  induction n as [|m IH]; intros p s target Hlen Hperm.
  - exists []. simpl. destruct p as [|a [|? ?]]; try done.
    symmetry in Hperm. by apply Permutation_singleton_l in Hperm as ->.
  - assert (Htl : length target = S (S m)) by (by rewrite Hperm).
    destruct (snoc_of_length target _ Htl) as (t & x & ->).
    assert (Hx : x ∈ p).
    { rewrite <- Hperm. apply elem_of_app. right. by left. }
    apply list_elem_of_lookup in Hx as [j Hj].
    pose proof (lookup_lt_Some _ _ _ Hj) as Hjlt.
    destruct (swap_last (S m) j p x Hlen Hj) as (q & Hq & Hqlen).
    assert (Hqt : t ≡ₚ q).
    { apply (Permutation_app_inv_r [x]). rewrite <- Hq, Hperm.
      symmetry. apply swap_Permutation. }
    destruct (IH q (x :: s) t Hqlen Hqt) as [draws Hdraws].
    exists (j :: draws). rewrite shuffle_from_S.
    change (hd 0%nat (j :: draws)) with j. change (tl (j :: draws)) with draws.
    rewrite Nat.mod_small by lia.
    rewrite swap_app_l by lia. rewrite Hq, <- !app_assoc. exact Hdraws.
Qed.

(** Every rearrangement of a list is an outcome of [random.shuffle]. *)
Lemma shuffle_reaches {A} (l target : list A) :
  target ≡ₚ l -> exists draws, Py.shuffle draws l = target.
Proof.
  intros Hperm. unfold Py.shuffle. destruct l as [|a l].
  - exists []. simpl. by apply Permutation_nil_r in Hperm.
  - destruct (shuffle_from_reaches (length l) (a :: l) [] target) as [draws H];
      [done|done|].
    exists draws. rewrite !app_nil_r in H. simpl. by rewrite Nat.sub_0_r.
Qed.

End ShuffleReach.

(** ** The order of the downloads *)

Section FetchOrderClaims.

Import Stealth.

Lemma quota_videos_limit self limit videos :
  match limit with
  | Some l => l <= 0 \/ Z.of_nat (length (quota_videos self limit videos)) <= l
  | None => True
  end.
Proof.
  destruct limit as [l|]; [|done].
  destruct (Z.le_gt_cases l 0); [by left|right].
  unfold quota_videos. rewrite (proj2 (Z.eqb_neq l 0)) by lia.
  pose proof (slice_to_length l videos) as Hl.
  destruct (_ <? _); [|lia].
  pose proof (prefix_length _ _
    (slice_to_prefix
       (daily_limit (stealth_params self) - downloads_today self)
       (Py.slice_to l videos))). lia.
Qed.

Lemma download_channel_fetch_limit self url limit days w self' fetched c :
  download_channel self url limit days w = (self', fetched, c) ->
  match limit with
  | Some l => l <= 0 \/ Z.of_nat (length fetched) <= l
  | None => True
  end.
Proof.
  rewrite download_channel_eq.
  assert (Hnone : match limit with
                  | Some l => l <= 0 \/ Z.of_nat (length (@nil fetch_call)) <= l
                  | None => True
                  end).
  { destruct limit as [l|]; [|done]. destruct (Z.le_gt_cases l 0); [by left|right].
    simpl. lia. }
  destruct (_ && _); [by intros [= <- <- <-]|].
  destruct (negb _); [by intros [= <- <- <-]|].
  cbv zeta. case_bool_decide; [by intros [= <- <- <-]|].
  destruct (run_loop _ _ _ _ _) as [st c1] eqn:Hloop. unfold run_loop in Hloop.
  apply download_loop_fetch_count in Hloop. simpl in Hloop.
  pose proof (quota_videos_limit self limit
                (_get_video_list self (w_reply w) days (w_now w) (w_shuffle w)))
    as Hlimit.
  assert (match limit with
          | Some l => l <= 0 \/ Z.of_nat (length (ls_fetched st)) <= l
          | None => True
          end).
  { destruct limit as [l|]; [|done]. destruct Hlimit as [?|?]; [by left|right]. lia. }
  destruct c1; by intros [= <- <- <-].
Qed.

Lemma download_channel_fetch_cut self url limit days w self' fetched c :
  download_channel self url limit days w = (self', fetched, c) ->
  map fc_id fetched
  `sublist_of` map id (quota_videos self limit
                         (_get_video_list self (w_reply w) days (w_now w)
                            (w_shuffle w))).
Proof.
  rewrite download_channel_eq.
  destruct (_ && _); [intros [= <- <- <-]; apply sublist_nil_l|].
  destruct (negb _); [intros [= <- <- <-]; apply sublist_nil_l|].
  cbv zeta. case_bool_decide; [intros [= <- <- <-]; apply sublist_nil_l|].
  destruct (run_loop _ _ _ _ _) as [st c1] eqn:Hloop. unfold run_loop in Hloop.
  apply download_loop_summary in Hloop as (extra & Hf & Hsub & _).
  simpl in Hf. subst extra.
  destruct c1; intros [= <- <- <-]; done.
Qed.

(** C10, as the code has it.  In the modes [high] and [paranoid] the list
    obtained from the catalog is shuffled before it is processed: whatever
    the shuffle draws it is a rearrangement of the videos listed, and every
    rearrangement is the outcome of some draws, so two runs over one
    catalog can take the videos in any two orders; in the modes [low] and
    [medium] the order of the catalog is kept.  The calls of [ydl.download]
    are not made for the whole of that list: the list is first cut to the
    caller's limit and to the quota left for the day, and the calls are
    made for videos of what is left, in its order, videos that are skipped
    leaving no call. *)
Theorem shuffled_list_is_cut_before_it_is_fetched
    (min_wait max_wait : Z) (pd : progress) (today sid : string)
    (self : downloader) (url : string) (limit days : option Z) (w : world) :
  let downloader mode := __init__ min_wait max_wait mode pd today sid in
  let listed := listed_videos (w_reply w) days (w_now w) in
  let videos mode draws :=
    _get_video_list (downloader mode) (w_reply w) days (w_now w) draws in
  (forall draws,
      videos "high" draws ≡ₚ listed /\ videos "paranoid" draws ≡ₚ listed
      /\ videos "low" draws = listed /\ videos "medium" draws = listed)
  /\ (forall target, target ≡ₚ listed ->
        exists draws_high draws_paranoid,
          videos "high" draws_high = target
          /\ videos "paranoid" draws_paranoid = target)
  /\ (let '(_, fetched, _) := download_channel self url limit days w in
      let shuffled :=
        _get_video_list self (w_reply w) days (w_now w) (w_shuffle w) in
      map fc_id fetched `sublist_of` map id (quota_videos self limit shuffled)
      /\ quota_videos self limit shuffled `prefix_of` shuffled
      /\ map fc_id fetched `sublist_of` map id shuffled
      /\ Z.of_nat (length fetched)
         <= Z.max 0 (daily_limit (stealth_params self) - downloads_today self)
      /\ match limit with
         | Some l => l <= 0 \/ Z.of_nat (length fetched) <= l
         | None => True
         end).
Proof.
  intros downloader listed videos. split_and!.
  - intros draws. split_and!; try reflexivity; apply shuffle_Permutation.
  - intros target Htarget.
    destruct (shuffle_reaches listed target Htarget) as [draws Hdraws].
    by exists draws, draws.
  - destruct (download_channel self url limit days w) as [[self' fetched] c] eqn:Hrun.
    split_and!.
    + by eapply download_channel_fetch_cut.
    + apply quota_videos_prefix.
    + by eapply download_channel_fetch_order.
    + by eapply download_channel_fetch_count.
    + by eapply download_channel_fetch_limit.
Qed.

End FetchOrderClaims.

(** C10 fails as stated: in mode [high], whose daily limit is 10, a run
    over a catalog of eleven videos calls [ydl.download] ten times, so the
    videos it is called for are not a rearrangement of the catalog's. *)
Lemma eleven_videos_get_ten_fetches :
  length (snd eleven_run) = 10%nat
  /\ length (Stealth.listed_videos (Stealth.w_reply eleven_world) None
               (Stealth.w_now eleven_world)) = 11%nat
  /\ ~ (map Stealth.fc_id (snd eleven_run)
        ≡ₚ map Stealth.id
             (Stealth.listed_videos (Stealth.w_reply eleven_world) None
                (Stealth.w_now eleven_world))).
Proof.
  split; [by vm_compute|]. split; [by vm_compute|].
  intros Hperm. apply Permutation_length in Hperm.
  vm_compute in Hperm. discriminate.
Qed.

(** ** Records that are not final *)

Section AdvancedRetryFacts.

Import Advanced.



End AdvancedRetryFacts.

Section RecordClaimsRevised.


End RecordClaimsRevised.

